(** * Dynamic visualization engine: request-to-specification mapping

    A shallow embedding of [dynamic_viz/config.py] and
    [dynamic_viz/core.py]: the branding table, the [VizRequest] constructor,
    the nine chart generators of [DynamicVizEngine], the dispatch in
    [generate] with its session history, and the funnel wrapper of
    [AIVizAssistant].

    Python values are modelled by a JSON-like tree.  A [dict] is an
    association list in insertion order with unique keys, which is the order
    [json.dumps] serialises.  Code that can raise returns a [result].  The
    engine's only mutable object is the history list, threaded through
    [generate] as explicit state; the generators build a fresh document per
    call and mutate nothing else.  Two parts of a document are objects the
    generators did not create: the caller's list of records, and the module
    list [BRAND_PALETTE], which the section on the shared palette makes an
    explicit argument.  [generate_from_dict] and the wrappers for
    comparison, trend and distribution charts only build a request and call
    [generate]; they are left out. *)

From Stdlib Require Import ZArith Floats String Ascii List Bool Lia.
Import ListNotations.
Local Open Scope string_scope.
Local Open Scope list_scope.

(* ================================================================== *)
(** * Python values                                                    *)
(* ================================================================== *)

Local Unset Elimination Schemes.

(** [None], [bool], [int], [float], [str], [list] and [dict]. *)
Inductive json : Type :=
| JNull
| JBool (b : bool)
| JInt (z : Z)
| JFloat (f : float)
| JStr (s : string)
| JList (l : list json)
| JObj (kvs : list (string * json)).

Local Set Elimination Schemes.

Definition dict : Type := list (string * json).

(** Exceptions the modelled code can raise. *)
Inductive exn : Type :=
| TypeError.

Inductive result (A : Type) : Type :=
| Ok (a : A)
| Raise (e : exn).

Arguments Ok {A} a.
Arguments Raise {A} e.

Module Py.

(** [d.get(k)] on an insertion-ordered table. *)
Fixpoint get {A : Type} (k : string) (d : list (string * A)) : option A :=
  match d with
  | [] => None
  | (k', v) :: d' => if k' =? k then Some v else get k d'
  end.

(** [d.get(k, default)]. *)
Definition get_default {A : Type} (k : string) (d : list (string * A)) (default : A) : A :=
  match get k d with
  | Some v => v
  | None => default
  end.

(** [d[k] = v]: an existing key keeps its position, a new key goes last. *)
Fixpoint set (k : string) (v : json) (d : dict) : dict :=
  match d with
  | [] => [(k, v)]
  | (k', v') :: d' => if k' =? k then (k, v) :: d' else (k', v') :: set k v d'
  end.

(** Truth value of an optional string attribute: [None] and [""] are
    falsy. *)
Definition truthy (o : option string) : bool :=
  match o with
  | Some s => negb (s =? "")
  | None => false
  end.

(** [a or b] where both are optional strings. *)
Definition or_ (a b : option string) : option string :=
  if truthy a then a else b.

(** [a or "literal"]. *)
Definition or_str (a : option string) (b : string) : string :=
  match or_ a (Some b) with
  | Some s => s
  | None => b
  end.

(** [n - v] for an [int] literal [n]: [bool] is a subclass of [int], a
    [float] operand converts [n] to [float], anything else is
    [TypeError: unsupported operand type(s) for -]. *)
Definition int_sub (n : Z) (v : json) : result json :=
  match v with
  | JInt z => Ok (JInt (n - z))
  | JBool b => Ok (JInt (n - (if b then 1 else 0)))
  | JFloat f => Ok (JFloat (PrimFloat.sub (PrimFloat.of_uint63 (Uint63.of_Z n)) f))
  | JNull | JStr _ | JList _ | JObj _ => Raise TypeError
  end.

(** An optional string attribute as a value. *)
Definition of_opt (o : option string) : json :=
  match o with
  | Some s => JStr s
  | None => JNull
  end.

End Py.

(** One subscript of a document: a key of a [dict] or an index of a
    [list]. *)
Inductive step : Type :=
| K (key : string)
| I (index : nat).

Coercion K : string >-> step.

(** Navigation in a document: [doc[s1][s2]...]. *)
Fixpoint get_path (p : list step) (j : json) : option json :=
  match p with
  | [] => Some j
  | s :: p' =>
      match s, j with
      | K k, JObj kvs =>
          match Py.get k kvs with
          | Some v => get_path p' v
          | None => None
          end
      | I n, JList l =>
          match nth_error l n with
          | Some v => get_path p' v
          | None => None
          end
      | _, _ => None
      end
  end.


(* ================================================================== *)
(** * config.py                                                        *)
(* ================================================================== *)

Module Config.

Definition BRAND : list (string * string) :=
  [ ("cyan", "#00F5FF");
    ("magenta", "#E000FF");
    ("purple", "#7B2CFF");
    ("green", "#5BFF8A");
    ("orange", "#FF7A2F");
    ("bg_dark", "#111827");
    ("text", "#e2e8f0");
    ("text_muted", "#94a3b8") ].

(** [BRAND[k]].  Every subscript in the sources is a literal key of the
    table (lemma [BRAND_keys] below), so the [KeyError] branch is not
    reachable and is given the empty string. *)
Definition brand (k : string) : string :=
  Py.get_default k BRAND "".

Definition BRAND_PALETTE : list string :=
  [ brand "cyan"; brand "magenta"; brand "purple"; brand "green"; brand "orange" ].

End Config.

Import Config.

(* ================================================================== *)
(** * core.py: VizRequest                                              *)
(* ================================================================== *)

Definition CHART_TYPES : list string :=
  [ "bar"; "line"; "scatter"; "pie"; "heatmap"; "gauge"; "funnel"; "radial"; "timeline" ].

Record VizRequest : Type := {
  title : string;
  chart_type : string;
  data : list dict;
  x_field : option string;
  y_field : option string;
  color_field : option string;
  description : string;
  insight : string;
  created_at : string
}.

(** [chart_type in self.CHART_TYPES]. *)
Definition is_chart_type (s : string) : bool :=
  existsb (String.eqb s) CHART_TYPES.

(** [VizRequest.__init__].  [now] is the reading of
    [datetime.now().isoformat()] taken by the constructor. *)
Definition VizRequest_init (now : string) (title chart_type : string) (data : list dict)
    (x_field y_field color_field : option string) (description insight : string)
  : VizRequest :=
  {| title := title;
     chart_type := if is_chart_type chart_type then chart_type else "bar";
     data := data;
     x_field := x_field;
     y_field := y_field;
     color_field := color_field;
     description := description;
     insight := insight;
     created_at := now |}.

(** The rows of [request.data] as a value: the list object itself, which
    the generators embed without copying. *)
Definition rows (d : list dict) : json :=
  JList (map JObj d).

Definition to_dict (self : VizRequest) : dict :=
  [ ("title", JStr (title self));
    ("chart_type", JStr (chart_type self));
    ("data", rows (data self));
    ("x_field", Py.of_opt (x_field self));
    ("y_field", Py.of_opt (y_field self));
    ("color_field", Py.of_opt (color_field self));
    ("description", JStr (description self));
    ("insight", JStr (insight self));
    ("created_at", JStr (created_at self)) ].

(* ================================================================== *)
(** * core.py: DynamicVizEngine                                        *)
(* ================================================================== *)

Definition bind {A B : Type} (m : result A) (k : A -> result B) : result B :=
  match m with
  | Ok a => k a
  | Raise e => Raise e
  end.

Notation "x <- m ;; k" := (bind m (fun x => k))
  (at level 61, m at next level, right associativity).

(** A field descriptor [{"field": name}] with further entries. *)
Definition field (name : string) (more : dict) : json :=
  JObj (("field", JStr name) :: more).

Definition palette_scale : json :=
  JObj [ ("range", JList (map JStr BRAND_PALETTE)) ].

Definition _base_spec (request : VizRequest) : dict :=
  [ ("$schema", JStr "https://vega.github.io/schema/vega-lite/v5.json");
    ("title", JObj
       [ ("text", JStr (title request));
         ("color", JStr (brand "text"));
         ("anchor", JStr "start");
         ("fontSize", JInt 16);
         ("subtitle", if insight request =? "" then JNull else JStr (insight request));
         ("subtitleColor", JStr (brand "text_muted")) ]);
    ("width", JInt 400);
    ("height", JInt 250);
    ("data", JObj [ ("values", rows (data request)) ]);
    ("config", JObj
       [ ("background", JStr (brand "bg_dark"));
         ("view", JObj [ ("stroke", JNull) ]);
         ("axis", JObj
            [ ("labelColor", JStr (brand "text_muted"));
              ("titleColor", JStr (brand "text"));
              ("gridColor", JStr "#374151") ]);
         ("legend", JObj
            [ ("labelColor", JStr (brand "text_muted"));
              ("titleColor", JStr (brand "text")) ]) ]) ].

Definition _gen_bar (request : VizRequest) : dict :=
  let spec := _base_spec request in
  let spec := Py.set "mark" (JObj [ ("type", JStr "bar"); ("cornerRadiusEnd", JInt 4) ]) spec in
  let spec := Py.set "encoding" (JObj
    [ ("x", field (Py.or_str (x_field request) "category") [ ("type", JStr "nominal"); ("title", JNull) ]);
      ("y", field (Py.or_str (y_field request) "value") [ ("type", JStr "quantitative") ]);
      ("color", field (Py.or_str (Py.or_ (color_field request) (x_field request)) "category")
         [ ("type", JStr "nominal"); ("scale", palette_scale); ("legend", JNull) ]);
      ("tooltip", JList
         [ field (Py.or_str (x_field request) "category") [];
           field (Py.or_str (y_field request) "value") [] ]) ]) spec in
  spec.

Definition _gen_line (request : VizRequest) : dict :=
  let spec := _base_spec request in
  let spec := Py.set "mark"
    (JObj [ ("type", JStr "line"); ("strokeWidth", JInt 3); ("point", JBool true) ]) spec in
  let spec := Py.set "encoding" (JObj
    [ ("x", field (Py.or_str (x_field request) "date") [ ("type", JStr "temporal"); ("title", JNull) ]);
      ("y", field (Py.or_str (y_field request) "value") [ ("type", JStr "quantitative") ]);
      ("color", JObj [ ("value", JStr (brand "cyan")) ]);
      ("tooltip", JList
         [ field (Py.or_str (x_field request) "date") [];
           field (Py.or_str (y_field request) "value") [] ]) ]) spec in
  spec.

Definition _gen_scatter (request : VizRequest) : dict :=
  let spec := _base_spec request in
  let spec := Py.set "mark" (JObj [ ("type", JStr "circle"); ("size", JInt 80) ]) spec in
  let spec := Py.set "encoding" (JObj
    [ ("x", field (Py.or_str (x_field request) "x") [ ("type", JStr "quantitative") ]);
      ("y", field (Py.or_str (y_field request) "y") [ ("type", JStr "quantitative") ]);
      ("color", field (Py.or_str (color_field request) "category")
         [ ("type", JStr "nominal"); ("scale", palette_scale) ]);
      ("tooltip", JList
         [ field (Py.or_str (x_field request) "x") [];
           field (Py.or_str (y_field request) "y") [] ]) ]) spec in
  spec.

Definition _gen_pie (request : VizRequest) : dict :=
  let spec := _base_spec request in
  let spec := Py.set "mark" (JObj [ ("type", JStr "arc"); ("innerRadius", JInt 50) ]) spec in
  let spec := Py.set "encoding" (JObj
    [ ("theta", field (Py.or_str (y_field request) "value") [ ("type", JStr "quantitative") ]);
      ("color", field (Py.or_str (x_field request) "category")
         [ ("type", JStr "nominal"); ("scale", palette_scale) ]);
      ("tooltip", JList
         [ field (Py.or_str (x_field request) "category") [];
           field (Py.or_str (y_field request) "value") [] ]) ]) spec in
  spec.

(** The value a gauge shows:
    [request.data[0].get(request.y_field or 'value', 50) if request.data else 50]. *)
Definition gauge_value (request : VizRequest) : json :=
  match data request with
  | d0 :: _ => Py.get_default (Py.or_str (y_field request) "value") d0 (JInt 50)
  | [] => JInt 50
  end.

Definition _gen_gauge (request : VizRequest) : result dict :=
  let value := gauge_value request in
  let max_val := 100%Z in
  remaining <- Py.int_sub max_val value ;;
  let gauge_data :=
    JList [ JObj [ ("segment", JStr "Value"); ("value", value) ];
            JObj [ ("segment", JStr "Remaining"); ("value", remaining) ] ] in
  let spec := _base_spec request in
  let spec := Py.set "data" (JObj [ ("values", gauge_data) ]) spec in
  let spec := Py.set "mark"
    (JObj [ ("type", JStr "arc"); ("innerRadius", JInt 60); ("outerRadius", JInt 100) ]) spec in
  let spec := Py.set "encoding" (JObj
    [ ("theta", field "value" [ ("type", JStr "quantitative"); ("stack", JBool true) ]);
      ("color", field "segment"
         [ ("type", JStr "nominal");
           ("scale", JObj
              [ ("domain", JList [ JStr "Value"; JStr "Remaining" ]);
                ("range", JList [ JStr (brand "cyan"); JStr "#1e293b" ]) ]);
           ("legend", JNull) ]) ]) spec in
  let spec := Py.set "width" (JInt 200) spec in
  let spec := Py.set "height" (JInt 200) spec in
  Ok spec.

Definition _gen_funnel (request : VizRequest) : dict :=
  let spec := _base_spec request in
  let spec := Py.set "mark" (JObj [ ("type", JStr "bar"); ("cornerRadiusEnd", JInt 4) ]) spec in
  let spec := Py.set "encoding" (JObj
    [ ("y", field (Py.or_str (x_field request) "stage")
         [ ("type", JStr "ordinal"); ("sort", JNull); ("title", JNull) ]);
      ("x", field (Py.or_str (y_field request) "value") [ ("type", JStr "quantitative") ]);
      ("color", field (Py.or_str (x_field request) "stage")
         [ ("type", JStr "nominal"); ("scale", palette_scale); ("legend", JNull) ]) ]) spec in
  spec.

Definition _gen_heatmap (request : VizRequest) : dict :=
  let spec := _base_spec request in
  let spec := Py.set "mark" (JStr "rect") spec in
  let spec := Py.set "encoding" (JObj
    [ ("x", field (Py.or_str (x_field request) "x") [ ("type", JStr "ordinal") ]);
      ("y", field (Py.or_str (y_field request) "y") [ ("type", JStr "ordinal") ]);
      ("color", field (Py.or_str (color_field request) "value")
         [ ("type", JStr "quantitative");
           ("scale", JObj
              [ ("range", JList [ JStr (brand "purple"); JStr (brand "cyan") ]) ]) ]) ]) spec in
  spec.

Definition _gen_radial (request : VizRequest) : dict :=
  let spec := _base_spec request in
  let spec := Py.set "mark" (JObj [ ("type", JStr "arc"); ("innerRadius", JInt 30) ]) spec in
  let spec := Py.set "encoding" (JObj
    [ ("theta", field (Py.or_str (y_field request) "value")
         [ ("type", JStr "quantitative"); ("stack", JBool true) ]);
      ("color", field (Py.or_str (x_field request) "category")
         [ ("type", JStr "nominal"); ("scale", palette_scale) ]) ]) spec in
  spec.

Definition _gen_timeline (request : VizRequest) : dict :=
  let spec := _base_spec request in
  let spec := Py.set "mark" (JObj [ ("type", JStr "circle"); ("size", JInt 100) ]) spec in
  let spec := Py.set "encoding" (JObj
    [ ("x", field (Py.or_str (x_field request) "date") [ ("type", JStr "temporal") ]);
      ("y", JObj [ ("value", JInt 0) ]);
      ("color", field (Py.or_str (color_field request) "category")
         [ ("type", JStr "nominal"); ("scale", palette_scale) ]);
      ("tooltip", JList
         [ field (Py.or_str (x_field request) "date") [];
           field "event" [ ("type", JStr "nominal") ] ]) ]) spec in
  let spec := Py.set "height" (JInt 80) spec in
  spec.

(** A generator with no raising operation in its body. *)
Definition total (g : VizRequest -> dict) : VizRequest -> result dict :=
  fun request => Ok (g request).

(** The generators with no raising operation in their bodies. *)
Definition total_generators : list (VizRequest -> dict) :=
  [ _gen_bar; _gen_line; _gen_scatter; _gen_pie; _gen_funnel; _gen_heatmap;
    _gen_radial; _gen_timeline ].

(** The [generators] table of [generate], in source order. *)
Definition generators : list (string * (VizRequest -> result dict)) :=
  [ ("bar", total _gen_bar);
    ("line", total _gen_line);
    ("scatter", total _gen_scatter);
    ("pie", total _gen_pie);
    ("gauge", _gen_gauge);
    ("funnel", total _gen_funnel);
    ("heatmap", total _gen_heatmap);
    ("radial", total _gen_radial);
    ("timeline", total _gen_timeline) ].

(** The engine owns the session history [generated_charts]. *)
Record DynamicVizEngine : Type := {
  generated_charts : list dict
}.

Definition DynamicVizEngine_init : DynamicVizEngine :=
  {| generated_charts := [] |}.

(** The entry [generate] appends. *)
Definition chart_record (request : VizRequest) (spec : dict) : dict :=
  [ ("request", JObj (to_dict request)); ("spec", JObj spec) ].

(** [generators.get(request.chart_type, self._gen_bar)(request)]. *)
Definition run_generator (request : VizRequest) : result dict :=
  Py.get_default (chart_type request) generators (total _gen_bar) request.

(** [generate]: the engine after the call and what the call gives the
    caller.  An exception of the generator propagates before the
    [append], so the history is untouched then. *)
Definition generate (self : DynamicVizEngine) (request : VizRequest)
  : DynamicVizEngine * result dict :=
  match run_generator request with
  | Ok spec =>
      ({| generated_charts := generated_charts self ++ [ chart_record request spec ] |},
       Ok spec)
  | Raise e => (self, Raise e)
  end.

(** Successive calls on one engine, each exception caught by the caller. *)
Fixpoint generate_all (self : DynamicVizEngine) (requests : list VizRequest)
  : DynamicVizEngine * list (result dict) :=
  match requests with
  | [] => (self, [])
  | request :: rest =>
      let '(self1, res) := generate self request in
      let '(self2, ress) := generate_all self1 rest in
      (self2, res :: ress)
  end.

(** ** The palette as a shared list

    [BRAND_PALETTE] is one list object of the module [config].  Six
    generators write ["scale": {"range": BRAND_PALETTE}]: the document holds
    that list itself, not a copy, so a caller who appends to the range of a
    returned document appends to [BRAND_PALETTE], and every later call reads
    the longer list.  The definitions below take the content of the list at
    the time of the call as an argument; [initial_palette] is its content
    when the module is loaded, and at that content they are the generators
    above.  The line, gauge and heatmap generators do not read the list: the
    line has a fixed color value, the other two build a list of their own
    per call. *)














(* ================================================================== *)
(** * core.py: AIVizAssistant                                          *)
(* ================================================================== *)

Record AIVizAssistant : Type := {
  engine : DynamicVizEngine
}.

Definition AIVizAssistant_init : AIVizAssistant :=
  {| engine := DynamicVizEngine_init |}.

(** [enumerate(l)], counting from [i]. *)
Fixpoint enumerate_from {A : Type} (i : Z) (l : list A) : list (Z * A) :=
  match l with
  | [] => []
  | a :: l' => (i, a) :: enumerate_from (i + 1) l'
  end.

Definition visualize_metric (self : AIVizAssistant) (now : string)
    (title : string) (value max_value : json) (insight : string)
  : AIVizAssistant * result dict :=
  let data := [ [ ("value", value); ("max", max_value) ] ] in
  let request := VizRequest_init now title "gauge" data None (Some "value") None "" insight in
  let '(e, res) := generate (engine self) request in
  ({| engine := e |}, res).

Definition visualize_funnel (self : AIVizAssistant) (now : string)
    (title : string) (stages : list string) (values : list json) (insight : string)
  : AIVizAssistant * result dict :=
  let data :=
    map (fun '(i, (s, v)) => [ ("stage", JStr s); ("value", v); ("order", JInt i) ])
        (enumerate_from 0 (combine stages values)) in
  let request :=
    VizRequest_init now title "funnel" data (Some "stage") (Some "value") None "" insight in
  let '(e, res) := generate (engine self) request in
  ({| engine := e |}, res).

Definition get_chart_history (self : AIVizAssistant) : list dict :=
  generated_charts (engine self).

(** The rows the comparison and distribution wrappers build:
    [[{"category": cat, "value": val} for cat, val in zip(categories, values)]]. *)
Definition category_rows (categories : list string) (values : list json) : list dict :=
  map (fun '(cat, val) => [ ("category", JStr cat); ("value", val) ])
      (combine categories values).

(** [[{"date": d, "value": v} for d, v in zip(dates, values)]]. *)
Definition date_rows (dates : list string) (values : list json) : list dict :=
  map (fun '(d, v) => [ ("date", JStr d); ("value", v) ]) (combine dates values).

(** Run one request on the assistant's engine. *)
Definition assistant_generate (self : AIVizAssistant) (request : VizRequest)
  : AIVizAssistant * result dict :=
  let '(e, res) := generate (engine self) request in
  ({| engine := e |}, res).

Definition visualize_comparison (self : AIVizAssistant) (now : string)
    (title : string) (categories : list string) (values : list json) (insight : string)
  : AIVizAssistant * result dict :=
  let data := category_rows categories values in
  let request :=
    VizRequest_init now title "bar" data (Some "category") (Some "value") None "" insight in
  assistant_generate self request.

Definition visualize_trend (self : AIVizAssistant) (now : string)
    (title : string) (dates : list string) (values : list json) (insight : string)
  : AIVizAssistant * result dict :=
  let data := date_rows dates values in
  let request :=
    VizRequest_init now title "line" data (Some "date") (Some "value") None "" insight in
  assistant_generate self request.

Definition visualize_distribution (self : AIVizAssistant) (now : string)
    (title : string) (categories : list string) (values : list json) (insight : string)
  : AIVizAssistant * result dict :=
  let data := category_rows categories values in
  let request :=
    VizRequest_init now title "pie" data (Some "category") (Some "value") None "" insight in
  assistant_generate self request.

(** ** The untyped entry point

    [generate_from_dict] reads a payload with [req_dict.get].  The record
    [VizRequest] of this model is typed as [__init__] annotates it, so the
    payload values are read at those types: a string for title, chart_type,
    description and insight, a list of dicts for data, a string or [None]
    for the three field names.  [None] as a result marks a payload with a
    value of another type, which this model does not cover; it is not an
    exception of the code. *)

Definition as_str (v : json) : option string :=
  match v with
  | JStr s => Some s
  | _ => None
  end.

(** The value of [req_dict.get(k)] as an optional field name: a missing
    key and an explicit [None] both give [None]. *)
Definition as_opt_str (v : option json) : option (option string) :=
  match v with
  | None | Some JNull => Some None
  | Some (JStr s) => Some (Some s)
  | Some _ => None
  end.

Fixpoint as_dicts (l : list json) : option (list dict) :=
  match l with
  | [] => Some []
  | JObj kvs :: l' =>
      match as_dicts l' with
      | Some d => Some (kvs :: d)
      | None => None
      end
  | _ :: _ => None
  end.

Definition as_rows (v : json) : option (list dict) :=
  match v with
  | JList l => as_dicts l
  | _ => None
  end.

(** The request [generate_from_dict] constructs. *)
Definition request_from_dict (now : string) (req_dict : dict) : option VizRequest :=
  match as_str (Py.get_default "title" req_dict (JStr "Chart")),
        as_str (Py.get_default "chart_type" req_dict (JStr "bar")),
        as_rows (Py.get_default "data" req_dict (JList [])),
        as_opt_str (Py.get "x_field" req_dict),
        as_opt_str (Py.get "y_field" req_dict),
        as_opt_str (Py.get "color_field" req_dict),
        as_str (Py.get_default "description" req_dict (JStr "")),
        as_str (Py.get_default "insight" req_dict (JStr ""))
  with
  | Some title, Some chart_type, Some data, Some x_field, Some y_field, Some color_field,
    Some description, Some insight =>
      Some (VizRequest_init now title chart_type data x_field y_field color_field
                            description insight)
  | _, _, _, _, _, _, _, _ => None
  end.

Definition generate_from_dict (self : DynamicVizEngine) (now : string) (req_dict : dict)
  : option (DynamicVizEngine * result dict) :=
  match request_from_dict now req_dict with
  | Some request => Some (generate self request)
  | None => None
  end.

Definition visualize_custom (self : AIVizAssistant) (now : string) (request_dict : dict)
  : option (AIVizAssistant * result dict) :=
  match generate_from_dict (engine self) now request_dict with
  | Some (e, res) => Some ({| engine := e |}, res)
  | None => None
  end.

(* ================================================================== *)
(** * Vocabulary of the properties                                     *)
(* ================================================================== *)

(** [doc[s1][s2]...] of a specification document. *)
Definition at_path (p : list step) (doc : dict) : option json :=
  get_path p (JObj doc).




(** The strings of a value that sits where the chart grammar expects a
    color or a list of colors. *)
Definition colors_at (j : json) : list string :=
  match j with
  | JStr s => [s]
  | JList l => flat_map (fun x => match x with JStr s => [s] | _ => [] end) l
  | _ => []
  end.

(** The color-valued properties of the documents the generators build. *)
Definition color_paths : list (list step) :=
  [ [K "title"; K "color"];
    [K "title"; K "subtitleColor"];
    [K "config"; K "background"];
    [K "config"; K "view"; K "stroke"];
    [K "config"; K "axis"; K "labelColor"];
    [K "config"; K "axis"; K "titleColor"];
    [K "config"; K "axis"; K "gridColor"];
    [K "config"; K "legend"; K "labelColor"];
    [K "config"; K "legend"; K "titleColor"];
    [K "encoding"; K "color"; K "value"];
    [K "encoding"; K "color"; K "scale"; K "range"] ].

Definition color_slots (doc : dict) : list string :=
  flat_map (fun p => match at_path p doc with Some v => colors_at v | None => [] end)
           color_paths.



(** The request attribute that names the field of a channel. *)
Inductive attr : Type :=
| AX
| AY
| AColor.

Definition attr_of (a : attr) (r : VizRequest) : option string :=
  match a with
  | AX => x_field r
  | AY => y_field r
  | AColor => color_field r
  end.

(** The default field names per kind, as the table of generation rules
    gives them: the place of the field name in the document, the request
    attribute that overrides it, and the default.  The gauge has no entry:
    its channels read the fixed fields [value] and [segment]. *)
Definition default_fields : list (string * list (list step * attr * string)) :=
  [ ("bar",
      [ ([K "encoding"; K "x"; K "field"], AX, "category");
        ([K "encoding"; K "y"; K "field"], AY, "value");
        ([K "encoding"; K "tooltip"; I 0; K "field"], AX, "category");
        ([K "encoding"; K "tooltip"; I 1; K "field"], AY, "value") ]);
    ("line",
      [ ([K "encoding"; K "x"; K "field"], AX, "date");
        ([K "encoding"; K "y"; K "field"], AY, "value");
        ([K "encoding"; K "tooltip"; I 0; K "field"], AX, "date");
        ([K "encoding"; K "tooltip"; I 1; K "field"], AY, "value") ]);
    ("scatter",
      [ ([K "encoding"; K "x"; K "field"], AX, "x");
        ([K "encoding"; K "y"; K "field"], AY, "y");
        ([K "encoding"; K "color"; K "field"], AColor, "category");
        ([K "encoding"; K "tooltip"; I 0; K "field"], AX, "x");
        ([K "encoding"; K "tooltip"; I 1; K "field"], AY, "y") ]);
    ("pie",
      [ ([K "encoding"; K "color"; K "field"], AX, "category");
        ([K "encoding"; K "theta"; K "field"], AY, "value");
        ([K "encoding"; K "tooltip"; I 0; K "field"], AX, "category");
        ([K "encoding"; K "tooltip"; I 1; K "field"], AY, "value") ]);
    ("funnel",
      [ ([K "encoding"; K "y"; K "field"], AX, "stage");
        ([K "encoding"; K "x"; K "field"], AY, "value");
        ([K "encoding"; K "color"; K "field"], AX, "stage") ]);
    ("heatmap",
      [ ([K "encoding"; K "x"; K "field"], AX, "x");
        ([K "encoding"; K "y"; K "field"], AY, "y");
        ([K "encoding"; K "color"; K "field"], AColor, "value") ]);
    ("radial",
      [ ([K "encoding"; K "color"; K "field"], AX, "category");
        ([K "encoding"; K "theta"; K "field"], AY, "value") ]);
    ("timeline",
      [ ([K "encoding"; K "x"; K "field"], AX, "date");
        ([K "encoding"; K "color"; K "field"], AColor, "category");
        ([K "encoding"; K "tooltip"; I 0; K "field"], AX, "date") ]) ].

(** "A supplied name takes precedence over the default", read literally:
    any string given for the attribute, the empty one included. *)
Definition claimed_field (supplied : option string) (default : string) : string :=
  match supplied with
  | Some s => s
  | None => default
  end.

(** The same with the empty string counted as an omitted attribute. *)
Definition nonempty (o : option string) : option string :=
  match o with
  | Some s => if s =? "" then None else Some s
  | None => None
  end.

(** Record values of the documented kinds: strings (date-like ones
    included) and numbers. *)
Definition documented_value (v : json) : bool :=
  match v with
  | JStr _ | JInt _ | JFloat _ => true
  | JNull | JBool _ | JList _ | JObj _ => false
  end.

Definition documented_data (d : list dict) : bool :=
  forallb (forallb (fun kv => documented_value (snd kv))) d.

Definition is_number (v : json) : bool :=
  match v with
  | JInt _ | JFloat _ | JBool _ => true
  | JNull | JStr _ | JList _ | JObj _ => false
  end.

(** The two rows a gauge document carries. *)
Definition gauge_rows (value remaining : json) : json :=
  JList [ JObj [ ("segment", JStr "Value"); ("value", value) ];
          JObj [ ("segment", JStr "Remaining"); ("value", remaining) ] ].

(** [doc["data"]["values"]] of what a call gave, when it gave a document. *)
Definition data_values (res : result dict) : option json :=
  match res with
  | Ok doc => at_path [K "data"; K "values"] doc
  | Raise _ => None
  end.

Definition is_ok {A : Type} (res : result A) : bool :=
  match res with
  | Ok _ => true
  | Raise _ => false
  end.

(** The history entries of the calls that returned, in call order. *)
Fixpoint returned (calls : list (VizRequest * result dict)) : list dict :=
  match calls with
  | [] => []
  | (request, Ok spec) :: rest => chart_record request spec :: returned rest
  | (_, Raise _) :: rest => returned rest
  end.

(** The keys of every document, in the order the generators insert them. *)
Definition ENVELOPE : list string :=
  [ "$schema"; "title"; "width"; "height"; "data"; "config"; "mark"; "encoding" ].

(** The styling block of [_base_spec], which no generator touches. *)
Definition CONFIG : json :=
  JObj
    [ ("background", JStr "#111827");
      ("view", JObj [ ("stroke", JNull) ]);
      ("axis", JObj
         [ ("labelColor", JStr "#94a3b8");
           ("titleColor", JStr "#e2e8f0");
           ("gridColor", JStr "#374151") ]);
      ("legend", JObj
         [ ("labelColor", JStr "#94a3b8");
           ("titleColor", JStr "#e2e8f0") ]) ].

(** Width and height of the canvas by kind: the gauge and the timeline
    override the base size. *)
Definition canvas (kind : string) : Z * Z :=
  if kind =? "gauge" then (200, 200)%Z
  else if kind =? "timeline" then (400, 80)%Z
  else (400, 250)%Z.

(** The mark of a document as a type name: [mark["type"]], or the mark
    itself when it is a plain string. *)
Definition mark_type (doc : dict) : option string :=
  match at_path [K "mark"] doc with
  | Some (JStr s) => Some s
  | Some (JObj kvs) =>
      match Py.get "type" kvs with
      | Some (JStr s) => Some s
      | _ => None
      end
  | _ => None
  end.

(** The mark type each kind draws with. *)
Definition mark_of_kind (kind : string) : string :=
  if kind =? "line" then "line"
  else if (kind =? "scatter") || (kind =? "timeline") then "circle"
  else if (kind =? "pie") || (kind =? "gauge") || (kind =? "radial") then "arc"
  else if kind =? "heatmap" then "rect"
  else "bar".

(** The keys of a row. *)
Definition has_key (k : string) (d : dict) : Prop :=
  Py.get k d <> None.

(** A history entry that records a call: the serialised request of the
    call with the document the call returned. *)
Definition records_a_call (entry : dict) : Prop :=
  exists r doc, run_generator r = Ok doc /\ entry = chart_record r doc.

(** The keys of a serialised request, in the order of [to_dict]. *)
Definition REQUEST_KEYS : list string :=
  [ "title"; "chart_type"; "data"; "x_field"; "y_field"; "color_field";
    "description"; "insight"; "created_at" ].

(** A request used to instantiate the statements below. *)
Definition demo (kind : string) : VizRequest :=
  VizRequest_init "2024-05-01T10:00:00" "Demo" kind
    [ [ ("date", JStr "2024-04-30"); ("value", JInt 3) ] ]
    None None None "" "note".

(* ================================================================== *)
(** * Basic facts about the model                                      *)
(* ================================================================== *)

(** Every [BRAND[...]] subscript of the sources names a key of the table. *)
Lemma BRAND_keys :
  Forall (fun k => Py.get k BRAND <> None)
         [ "cyan"; "magenta"; "purple"; "green"; "orange"; "bg_dark"; "text"; "text_muted" ].
Proof. repeat constructor; discriminate. Qed.

Lemma is_chart_type_In (s : string) : is_chart_type s = true <-> In s CHART_TYPES.
Proof.
  unfold is_chart_type. rewrite existsb_exists. split.
  - intros [k [Hin Heq]]. apply String.eqb_eq in Heq. now subst.
  - intros Hin. exists s. split; [assumption | apply String.eqb_refl].
Qed.

(** The generator table has exactly the enumerated kinds as keys. *)
Lemma generators_keys (k : string) :
  In k (map fst generators) <-> In k CHART_TYPES.
Proof. simpl. tauto. Qed.

(** The constructor always yields an enumerated kind: the given one when
    it is enumerated, ["bar"] otherwise. *)
Lemma init_kind now t ct d xf yf cf desc ins :
  exists k,
    In k CHART_TYPES /\
    (In ct CHART_TYPES -> k = ct) /\
    (~ In ct CHART_TYPES -> k = "bar") /\
    VizRequest_init now t ct d xf yf cf desc ins =
      Build_VizRequest t k d xf yf cf desc ins now.
Proof.
  unfold VizRequest_init. destruct (is_chart_type ct) eqn:E.
  - apply is_chart_type_In in E. exists ct. repeat split; tauto.
  - exists "bar". repeat split.
    + simpl. tauto.
    + intros H. apply is_chart_type_In in H. congruence.
Qed.

(** Split a membership in [CHART_TYPES] into its nine cases. *)
Ltac kinds H :=
  simpl in H;
  repeat (destruct H as [H | H]; [ symmetry in H; subst | ]);
  [ .. | contradiction H ].

(** The outcome of a call does not depend on the engine it is made on. *)
Lemma generate_result (e : DynamicVizEngine) (r : VizRequest) :
  snd (generate e r) = run_generator r.
Proof. unfold generate. now destruct (run_generator r). Qed.

Lemma generate_history (e : DynamicVizEngine) (r : VizRequest) :
  generated_charts (fst (generate e r)) =
    generated_charts e ++ returned [ (r, run_generator r) ].
Proof.
  unfold generate. destruct (run_generator r); simpl.
  - reflexivity.
  - now rewrite app_nil_r.
Qed.

(** A key outside the table falls back to the bar generator. *)
Lemma run_generator_fallback (r : VizRequest) :
  ~ In (chart_type r) CHART_TYPES -> run_generator r = Ok (_gen_bar r).
Proof.
  intros H. unfold run_generator, Py.get_default.
  cbv [generators Py.get].
  repeat match goal with
  | |- context [ (?k =? chart_type r) ] =>
      destruct (String.eqb_spec k (chart_type r)) as [E | _];
      [ exfalso; apply H; rewrite <- E; simpl; tauto | ]
  end.
  reflexivity.
Qed.

(** What the dispatch can run. *)
Lemma run_generator_cases (r : VizRequest) :
  run_generator r = _gen_gauge r \/
  exists g, In g total_generators /\ run_generator r = Ok (g r).
Proof.
  unfold run_generator, Py.get_default.
  cbv [generators Py.get].
  repeat match goal with
  | |- context [ (?k =? chart_type r) ] =>
      destruct (String.eqb_spec k (chart_type r)) as [_ | _];
      [ first [ now left
              | right; eexists; split; [ | reflexivity ]; simpl; tauto ] | ]
  end.
  right; eexists; split; [ | reflexivity ]; simpl; tauto.
Qed.

Lemma run_generator_gauge (r : VizRequest) :
  chart_type r = "gauge" -> run_generator r = _gen_gauge r.
Proof. intros H. unfold run_generator. now rewrite H. Qed.

Lemma run_generator_not_gauge (r : VizRequest) :
  chart_type r <> "gauge" -> exists doc, run_generator r = Ok doc.
Proof.
  intros H. unfold run_generator, Py.get_default.
  cbv [generators Py.get].
  repeat match goal with
  | |- context [ (?k =? chart_type r) ] =>
      destruct (String.eqb_spec k (chart_type r)) as [E | _];
      [ first [ now (exfalso; apply H) | cbv [total]; eexists; reflexivity ] | ]
  end.
  cbv [total]; eexists; reflexivity.
Qed.

Lemma or_str_None (d : string) : Py.or_str None d = d.
Proof. reflexivity. Qed.

Lemma or_str_empty (d : string) : Py.or_str (Some "") d = d.
Proof. reflexivity. Qed.

Lemma or_str_Some (s d : string) : s <> "" -> Py.or_str (Some s) d = s.
Proof.
  intros H. unfold Py.or_str, Py.or_, Py.truthy.
  destruct (String.eqb_spec s ""); [contradiction | reflexivity].
Qed.


Lemma or_str_nonempty (o : option string) (d : string) :
  Py.or_str o d = claimed_field (nonempty o) d.
Proof.
  destruct o as [s |]; [ | reflexivity ].
  unfold nonempty. destruct (String.eqb_spec s "") as [-> | H].
  - reflexivity.
  - now apply or_str_Some.
Qed.

(* ================================================================== *)
(** * Kind normalisation                                               *)
(* ================================================================== *)

(** C2: a chart_type string outside the nine enumerated kinds gives a
    request whose chart_type is "bar" (the constructor is a total function,
    it raises nothing), and [generate] on that request returns a document
    whose mark is the mark of the bar rule,
    [{"type": "bar", "cornerRadiusEnd": 4}]. *)
Theorem unrecognized_kind_coerced_to_bar (s : string) :
  ~ In s CHART_TYPES ->
  forall now t d xf yf cf desc ins e,
    let request := VizRequest_init now t s d xf yf cf desc ins in
    chart_type request = "bar" /\
    exists doc,
      snd (generate e request) = Ok doc /\
      at_path [K "mark"] doc = at_path [K "mark"] (_gen_bar request) /\
      at_path [K "mark"] doc =
        Some (JObj [ ("type", JStr "bar"); ("cornerRadiusEnd", JInt 4) ]).
Proof.
  intros Hs now t d xf yf cf desc ins e request.
  assert (Hk : chart_type request = "bar").
  { subst request. unfold VizRequest_init; simpl.
    destruct (is_chart_type s) eqn:E; [ | reflexivity ].
    apply is_chart_type_In in E. contradiction. }
  split; [ exact Hk | ].
  exists (_gen_bar request). rewrite generate_result.
  unfold run_generator. rewrite Hk. repeat split.
Qed.

Lemma unrecognized_kind_coerced_to_bar_witness :
  ~ In "sankey" CHART_TYPES /\
  let request :=
    VizRequest_init "2024-05-01T10:00:00" "Flows" "sankey" [ [ ("category", JStr "a") ] ]
                    None None None "" "" in
  chart_type request = "bar" /\
  exists doc,
    snd (generate DynamicVizEngine_init request) = Ok doc /\
    at_path [K "mark"] doc = at_path [K "mark"] (_gen_bar request) /\
    at_path [K "mark"] doc =
      Some (JObj [ ("type", JStr "bar"); ("cornerRadiusEnd", JInt 4) ]).
Proof.
  assert (H : ~ In "sankey" CHART_TYPES) by (simpl; intuition discriminate).
  split; [ exact H | ].
  exact (unrecognized_kind_coerced_to_bar "sankey" H "2024-05-01T10:00:00" "Flows"
           [ [ ("category", JStr "a") ] ] None None None "" "" DynamicVizEngine_init).
Defined.

(* ================================================================== *)
(** * Empty data                                                       *)
(* ================================================================== *)

(** C1, as the code has it: a request with [data = []] makes [generate]
    return a document for every chart_type string (no error is raised); its
    [data.values] is the empty list for the eight kinds other than gauge, and
    for the gauge it is the two synthetic rows Value 50 / Remaining 50. *)
Theorem empty_data_document :
  forall now t ct xf yf cf desc ins e,
    let request := VizRequest_init now t ct [] xf yf cf desc ins in
    exists doc,
      snd (generate e request) = Ok doc /\
      at_path [K "data"; K "values"] doc =
        Some (if chart_type request =? "gauge"
              then gauge_rows (JInt 50) (JInt 50)
              else JList []).
Proof.
  intros now t ct xf yf cf desc ins e request. subst request.
  rewrite generate_result.
  destruct (init_kind now t ct [] xf yf cf desc ins) as (k & Hk & _ & _ & ->).
  kinds Hk; eexists; (split; [ reflexivity | reflexivity ]).
Qed.

(** C1 fails for the gauge: with [data = []] its document carries two
    rows, not the empty list. *)
Lemma empty_data_gauge_counterexample :
  let request :=
    VizRequest_init "2024-05-01T10:00:00" "Score" "gauge" [] None None None "" "" in
  ~ (exists doc,
       snd (generate DynamicVizEngine_init request) = Ok doc /\
       at_path [K "data"; K "values"] doc = Some (JList [])).
Proof.
  intros request [doc [Hgen Hval]].
  vm_compute in Hgen. injection Hgen as <-.
  vm_compute in Hval. discriminate Hval.
Qed.

(* ================================================================== *)
(** * The gauge rule                                                   *)
(* ================================================================== *)

(** C4: a gauge request with [data = [{value: 85}]] (y_field left out, or
    'value' as the metric wrapper passes it) gets exactly the rows
    [{segment: "Value", value: 85}] and [{segment: "Remaining", value: 15}];
    for every integer value the remainder is 100 minus the value, whatever
    else the record holds (a 'max' entry is not read); with [data = []] both
    rows hold 50. *)
Theorem gauge_synthetic_rows :
  forall now t xf cf desc ins e,
    data_values (snd (generate e
      (VizRequest_init now t "gauge" [ [ ("value", JInt 85) ] ] xf None cf desc ins)))
      = Some (gauge_rows (JInt 85) (JInt 15)) /\
    data_values (snd (generate e
      (VizRequest_init now t "gauge" [ [ ("value", JInt 85) ] ] xf (Some "value") cf desc ins)))
      = Some (gauge_rows (JInt 85) (JInt 15)) /\
    (forall z more rest,
       data_values (snd (generate e
         (VizRequest_init now t "gauge" ((("value", JInt z) :: more) :: rest)
                          xf None cf desc ins)))
         = Some (gauge_rows (JInt z) (JInt (100 - z)))) /\
    (forall z m, exists doc,
       snd (visualize_metric {| engine := e |} now t (JInt z) m ins) = Ok doc /\
       at_path [K "data"; K "values"] doc = Some (gauge_rows (JInt z) (JInt (100 - z)))) /\
    (forall yf,
       data_values (snd (generate e
         (VizRequest_init now t "gauge" [] xf yf cf desc ins)))
         = Some (gauge_rows (JInt 50) (JInt 50))).
Proof.
  intros now t xf cf desc ins e.
  repeat split; intros; rewrite ?generate_result; try reflexivity.
  unfold visualize_metric.
  match goal with
  | |- context [ generate ?e0 ?r ] =>
      pose proof (generate_result e0 r) as Hres;
      destruct (generate e0 r) as [e1 res]; simpl in Hres; subst res
  end.
  eexists. split; reflexivity.
Qed.

(** C10, with the value field as the code picks it: for every gauge
    request whose data is non-empty and whose first record has no entry for
    the value field (y_field when it is given and not the empty string, else
    'value'), both rows hold 50, as they do for empty data. *)
Theorem gauge_missing_field_defaults :
  forall now t d0 rest xf yf cf desc ins e,
    Py.get (claimed_field (nonempty yf) "value") d0 = None ->
    data_values (snd (generate e
      (VizRequest_init now t "gauge" (d0 :: rest) xf yf cf desc ins)))
      = Some (gauge_rows (JInt 50) (JInt 50)) /\
    data_values (snd (generate e
      (VizRequest_init now t "gauge" (d0 :: rest) xf yf cf desc ins)))
      = data_values (snd (generate e
          (VizRequest_init now t "gauge" [] xf yf cf desc ins))).
Proof.
  intros now t d0 rest xf yf cf desc ins e H.
  rewrite <- or_str_nonempty in H.
  rewrite !generate_result.
  assert (Hv : gauge_value (VizRequest_init now t "gauge" (d0 :: rest) xf yf cf desc ins)
               = JInt 50).
  { unfold gauge_value, Py.get_default; simpl. now rewrite H. }
  rewrite !run_generator_gauge by reflexivity.
  unfold _gen_gauge. rewrite Hv.
  split; reflexivity.
Qed.

Lemma gauge_missing_field_defaults_witness :
  Py.get (claimed_field (nonempty (Some "score")) "value") [ ("value", JInt 85) ] = None /\
  data_values (snd (generate DynamicVizEngine_init
    (VizRequest_init "2024-05-01T10:00:00" "Score" "gauge" [ [ ("value", JInt 85) ] ]
                     None (Some "score") None "" "")))
    = Some (gauge_rows (JInt 50) (JInt 50)).
Proof.
  assert (H : Py.get (claimed_field (nonempty (Some "score")) "value")
                     [ ("value", JInt 85) ] = None) by reflexivity.
  split; [ exact H | ].
  exact (proj1 (gauge_missing_field_defaults "2024-05-01T10:00:00" "Score"
                  [ ("value", JInt 85) ] [] None (Some "score") None "" ""
                  DynamicVizEngine_init H)).
Defined.

(** C10 read literally (any supplied y_field, the empty string included,
    names the value field) fails: with [y_field = ""] the code reads
    'value', so a first record [{value: 7}], which has no entry for [""],
    gives the rows 7 and 93, not 50 and 50. *)
Lemma gauge_empty_y_field_counterexample :
  let d0 := [ ("value", JInt 7) ] in
  let request :=
    VizRequest_init "2024-05-01T10:00:00" "Score" "gauge" [ d0 ] None (Some "") None "" "" in
  Py.get (claimed_field (y_field request) "value") d0 = None /\
  data_values (snd (generate DynamicVizEngine_init request))
    = Some (gauge_rows (JInt 7) (JInt 93)) /\
  data_values (snd (generate DynamicVizEngine_init request))
    <> Some (gauge_rows (JInt 50) (JInt 50)).
Proof.
  repeat split; try reflexivity.
  vm_compute. discriminate.
Qed.

(* ================================================================== *)
(** * Totality                                                         *)
(* ================================================================== *)

Lemma get_documented (k : string) (d : dict) (v : json) :
  forallb (fun kv => documented_value (snd kv)) d = true ->
  Py.get k d = Some v -> documented_value v = true.
Proof.
  induction d as [| [k' v'] d IH]; simpl; [ discriminate | ].
  intros Hd Hget. apply andb_true_iff in Hd as [Hv Hd].
  destruct (k' =? k).
  - now injection Hget as <-.
  - now apply IH.
Qed.

(** On documented data the value of a gauge is a number or a string. *)
Lemma gauge_value_documented (r : VizRequest) :
  documented_data (data r) = true ->
  documented_value (gauge_value r) = true.
Proof.
  unfold documented_data, gauge_value, Py.get_default.
  destruct (data r) as [| d0 rest]; simpl; [ reflexivity | ].
  intros H. apply andb_true_iff in H as [H0 _].
  destruct (Py.get (Py.or_str (y_field r) "value") d0) as [v |] eqn:E.
  - now apply get_documented with (1 := H0) (2 := E).
  - reflexivity.
Qed.

(** The gauge rule raises exactly when its value is not a number. *)
Lemma gen_gauge_raises_iff (r : VizRequest) :
  _gen_gauge r = Raise TypeError <-> is_number (gauge_value r) = false.
Proof.
  unfold _gen_gauge. destruct (gauge_value r); simpl; split;
    solve [ reflexivity | discriminate ].
Qed.

Lemma gen_gauge_returns (r : VizRequest) :
  is_number (gauge_value r) = true -> exists doc, _gen_gauge r = Ok doc.
Proof.
  unfold _gen_gauge. destruct (gauge_value r); simpl; try discriminate;
    intros _; eexists; reflexivity.
Qed.

(** [generate] raises exactly on a gauge request whose value is not a
    number; nothing else in the engine can raise. *)
Lemma generate_raises_iff (e : DynamicVizEngine) (r : VizRequest) :
  snd (generate e r) = Raise TypeError <->
  chart_type r = "gauge" /\ is_number (gauge_value r) = false.
Proof.
  rewrite generate_result. split.
  - intros H. destruct (string_dec (chart_type r) "gauge") as [Hg | Hg].
    + split; [ exact Hg | ]. rewrite run_generator_gauge in H by exact Hg.
      now apply gen_gauge_raises_iff.
    + destruct (run_generator_not_gauge r Hg) as [doc Hdoc]. congruence.
  - intros [Hg Hn]. rewrite run_generator_gauge by exact Hg.
    now apply gen_gauge_raises_iff.
Qed.

(** C3, as the code has it: for every request whose records hold strings
    and numbers, and whose gauge value (for the gauge kind: the value field
    of the first record, when there is one) is not a string, generate
    returns a document and raises nothing; the document is a function of the
    request alone, and the only effect on the engine is the appended
    history entry. *)
Theorem generate_total_unless_gauge_string (r : VizRequest) :
  documented_data (data r) = true ->
  (chart_type r = "gauge" -> forall s, gauge_value r <> JStr s) ->
  exists doc, forall e,
    generate e r =
      ({| generated_charts := generated_charts e ++ [ chart_record r doc ] |}, Ok doc).
Proof.
  intros Hdoc Hnum.
  assert (Hrun : exists doc, run_generator r = Ok doc).
  { destruct (string_dec (chart_type r) "gauge") as [Hg | Hg].
    - rewrite run_generator_gauge by exact Hg.
      apply gen_gauge_returns.
      pose proof (gauge_value_documented r Hdoc) as Hv.
      specialize (Hnum Hg).
      destruct (gauge_value r); simpl in *; try reflexivity; try discriminate.
      now elim (Hnum s).
    - now apply run_generator_not_gauge. }
  destruct Hrun as [doc Hrun]. exists doc. intros e.
  unfold generate. now rewrite Hrun.
Qed.

Lemma generate_total_unless_gauge_string_witness :
  let r :=
    VizRequest_init "2024-05-01T10:00:00" "Score" "gauge"
      [ [ ("value", JFloat 85.5); ("label", JStr "2024-04-30") ] ]
      None None None "" "" in
  documented_data (data r) = true /\
  (chart_type r = "gauge" -> forall s, gauge_value r <> JStr s) /\
  exists doc, forall e,
    generate e r =
      ({| generated_charts := generated_charts e ++ [ chart_record r doc ] |}, Ok doc).
Proof.
  intros r.
  assert (H1 : documented_data (data r) = true) by reflexivity.
  assert (H2 : chart_type r = "gauge" -> forall s, gauge_value r <> JStr s)
    by (intros _ s; simpl; discriminate).
  exact (conj H1 (conj H2 (generate_total_unless_gauge_string r H1 H2))).
Defined.

(** C3 fails on the gauge: a record whose value field holds a string is
    documented data, and [100 - value] raises [TypeError]. *)
Lemma gauge_string_value_counterexample :
  let r :=
    VizRequest_init "2024-05-01T10:00:00" "Score" "gauge" [ [ ("value", JStr "high") ] ]
                    None None None "" "" in
  documented_data (data r) = true /\
  snd (generate DynamicVizEngine_init r) = Raise TypeError /\
  ~ (exists doc, snd (generate DynamicVizEngine_init r) = Ok doc).
Proof.
  repeat split. intros [doc H]. vm_compute in H. discriminate H.
Qed.

(* ================================================================== *)
(** * Session history                                                  *)
(* ================================================================== *)

Lemma generate_all_results (e : DynamicVizEngine) (rs : list VizRequest) :
  snd (generate_all e rs) = map run_generator rs.
Proof.
  revert e. induction rs as [| r rs IH]; intros e; simpl; [ reflexivity | ].
  pose proof (generate_result e r) as Hr.
  destruct (generate e r) as [e1 res]. simpl in Hr. subst res.
  specialize (IH e1). destruct (generate_all e1 rs) as [e2 ress].
  simpl in *. now rewrite IH.
Qed.

Lemma generate_all_history (e : DynamicVizEngine) (rs : list VizRequest) :
  generated_charts (fst (generate_all e rs)) =
    generated_charts e ++ returned (combine rs (map run_generator rs)).
Proof.
  revert e. induction rs as [| r rs IH]; intros e; simpl.
  - now rewrite app_nil_r.
  - pose proof (generate_history e r) as Hh.
    pose proof (generate_result e r) as Hr.
    destruct (generate e r) as [e1 res]. simpl in Hh, Hr. subst res.
    specialize (IH e1). destruct (generate_all e1 rs) as [e2 ress].
    simpl in *. rewrite IH, Hh.
    destruct (run_generator r); simpl.
    + now rewrite <- app_assoc.
    + now rewrite app_nil_r.
Qed.

Lemma returned_length (rs : list VizRequest) (ress : list (result dict)) :
  length rs = length ress ->
  length (returned (combine rs ress)) = length (filter is_ok ress).
Proof.
  revert ress. induction rs as [| r rs IH]; intros [| res ress]; simpl;
    try discriminate; [ reflexivity | ].
  intros H. injection H as H. destruct res; simpl; now rewrite IH.
Qed.

Lemma filter_all (A : Type) (f : A -> bool) (l : list A) :
  (forall a, In a l -> f a = true) -> filter f l = l.
Proof.
  induction l as [| a l IH]; simpl; [ reflexivity | ].
  intros H. rewrite (H a) by now left. f_equal. apply IH. intros b Hb. apply H. now right.
Qed.

(** C5, as the code has it: after a sequence of calls to generate on one
    engine, the history is the earlier history followed by one record per
    call that returned, in call order, each pairing the request with the
    document the call gave; a call that raises appends nothing.  So the
    history grows by the number of returning calls (by N when all N return),
    and every earlier entry stays at its index, unchanged. *)
Theorem history_append_only (e : DynamicVizEngine) (rs : list VizRequest) :
  let e' := fst (generate_all e rs) in
  let results := snd (generate_all e rs) in
  length results = length rs /\
  get_chart_history {| engine := e' |} =
    generated_charts e ++ returned (combine rs results) /\
  length (generated_charts e') =
    length (generated_charts e) + length (filter is_ok results) /\
  (forall i entry,
     nth_error (generated_charts e) i = Some entry ->
     nth_error (generated_charts e') i = Some entry) /\
  ((forall res, In res results -> is_ok res = true) ->
   length (generated_charts e') = length (generated_charts e) + length rs).
Proof.
  intros e' results. subst e' results.
  rewrite generate_all_results.
  assert (Hlen : length (map run_generator rs) = length rs) by apply length_map.
  assert (Hhist := generate_all_history e rs).
  assert (Hcount :
    length (generated_charts (fst (generate_all e rs))) =
      length (generated_charts e) + length (filter is_ok (map run_generator rs))).
  { rewrite Hhist, length_app, returned_length; [ reflexivity | now symmetry ]. }
  repeat split.
  - exact Hlen.
  - exact Hhist.
  - exact Hcount.
  - intros i entry Hi. rewrite Hhist.
    rewrite nth_error_app1; [ exact Hi | ].
    apply nth_error_Some. congruence.
  - intros Hall. rewrite Hcount, filter_all, Hlen; [ reflexivity | exact Hall ].
Qed.

(** C5 read literally fails: a call that raises leaves no record, so one
    call on a fresh engine can leave a history of length 0. *)
Lemma history_raising_call_counterexample :
  let r :=
    VizRequest_init "2024-05-01T10:00:00" "Score" "gauge" [ [ ("value", JStr "high") ] ]
                    None None None "" "" in
  let e' := fst (generate_all DynamicVizEngine_init [ r ]) in
  length [ r ] = 1 /\
  get_chart_history {| engine := e' |} = [] /\
  length (get_chart_history {| engine := e' |}) <> length [ r ].
Proof.
  repeat split. vm_compute. discriminate.
Qed.

(* ================================================================== *)
(** * Determinism                                                      *)
(* ================================================================== *)

(** No generator reads [created_at]. *)
Lemma run_generator_ignores_created_at t k d xf yf cf desc ins now1 now2 :
  run_generator (Build_VizRequest t k d xf yf cf desc ins now1) =
  run_generator (Build_VizRequest t k d xf yf cf desc ins now2).
Proof.
  cbv [run_generator Py.get_default generators Py.get chart_type].
  repeat match goal with
  | |- context [ (?c =? k) ] => destruct (c =? k); [ reflexivity | ]
  end.
  reflexivity.
Qed.

(** Two requests built from the same arguments at different times get
    the same outcome, on whatever engines the two calls are made. *)
Lemma generate_outcome_ignores_time :
  forall now1 now2 t ct d xf yf cf desc ins e1 e2,
    snd (generate e1 (VizRequest_init now1 t ct d xf yf cf desc ins)) =
    snd (generate e2 (VizRequest_init now2 t ct d xf yf cf desc ins)).
Proof.
  intros. rewrite !generate_result. apply run_generator_ignores_created_at.
Qed.

(** C9, as the code has it: two requests built from equal title, kind,
    data, field names, description and insight at different times, whose
    kind is not gauge or whose gauge value is a number, make generate return
    two equal documents, on whatever engines the two calls are made; each
    call appends one record holding that document, and the request parts of
    the two records differ in the 'created_at' entry only. *)
Theorem generate_deterministic :
  forall now1 now2 t ct d xf yf cf desc ins e1 e2,
    let r1 := VizRequest_init now1 t ct d xf yf cf desc ins in
    let r2 := VizRequest_init now2 t ct d xf yf cf desc ins in
    (chart_type r1 = "gauge" -> is_number (gauge_value r1) = true) ->
    exists doc,
      generate e1 r1 =
        ({| generated_charts := generated_charts e1 ++ [ chart_record r1 doc ] |}, Ok doc) /\
      generate e2 r2 =
        ({| generated_charts := generated_charts e2 ++ [ chart_record r2 doc ] |}, Ok doc) /\
      to_dict r2 = Py.set "created_at" (JStr now2) (to_dict r1) /\
      chart_record r2 doc =
        [ ("request", JObj (Py.set "created_at" (JStr now2) (to_dict r1)));
          ("spec", JObj doc) ].
Proof.
  intros now1 now2 t ct d xf yf cf desc ins e1 e2 r1 r2 Hnum.
  assert (Hrun : run_generator r1 = run_generator r2)
    by apply run_generator_ignores_created_at.
  assert (Hdoc : exists doc, run_generator r1 = Ok doc).
  { destruct (string_dec (chart_type r1) "gauge") as [Hg | Hg].
    - rewrite run_generator_gauge by exact Hg.
      apply gen_gauge_returns. exact (Hnum Hg).
    - now apply run_generator_not_gauge. }
  destruct Hdoc as [doc Hdoc]. exists doc.
  unfold generate. rewrite <- Hrun, Hdoc.
  repeat split; reflexivity.
Qed.

Lemma generate_deterministic_witness :
  let d := [ [ ("value", JFloat 85.5) ] ] in
  let r1 := VizRequest_init "2024-05-01T10:00:00" "Score" "gauge" d None None None "" "up" in
  let r2 := VizRequest_init "2024-05-02T09:30:00" "Score" "gauge" d None None None "" "up" in
  (chart_type r1 = "gauge" -> is_number (gauge_value r1) = true) /\
  exists doc,
    generate DynamicVizEngine_init r1 =
      ({| generated_charts := [ chart_record r1 doc ] |}, Ok doc) /\
    generate (fst (generate DynamicVizEngine_init r1)) r2 =
      ({| generated_charts :=
            generated_charts (fst (generate DynamicVizEngine_init r1)) ++
            [ chart_record r2 doc ] |}, Ok doc) /\
    to_dict r2 = Py.set "created_at" (JStr "2024-05-02T09:30:00") (to_dict r1) /\
    chart_record r2 doc =
      [ ("request", JObj (Py.set "created_at" (JStr "2024-05-02T09:30:00") (to_dict r1)));
        ("spec", JObj doc) ].
Proof.
  intros d r1 r2.
  assert (H : chart_type r1 = "gauge" -> is_number (gauge_value r1) = true)
    by (intros _; reflexivity).
  exact (conj H
           (generate_deterministic "2024-05-01T10:00:00" "2024-05-02T09:30:00" "Score"
              "gauge" d None None None "" "up" DynamicVizEngine_init
              (fst (generate DynamicVizEngine_init r1)) H)).
Defined.

(** C9 read literally fails: for two equal gauge requests whose value
    is a string, both calls raise TypeError, so no document is returned and
    no record is appended. *)
Lemma deterministic_raising_counterexample :
  let d := [ [ ("value", JStr "high") ] ] in
  let r1 := VizRequest_init "2024-05-01T10:00:00" "Score" "gauge" d None None None "" "" in
  let r2 := VizRequest_init "2024-05-02T09:30:00" "Score" "gauge" d None None None "" "" in
  generate DynamicVizEngine_init r1 = (DynamicVizEngine_init, Raise TypeError) /\
  generate DynamicVizEngine_init r2 = (DynamicVizEngine_init, Raise TypeError) /\
  ~ (exists doc1 doc2,
       snd (generate DynamicVizEngine_init r1) = Ok doc1 /\
       snd (generate DynamicVizEngine_init r2) = Ok doc2 /\
       doc1 = doc2).
Proof.
  repeat split. intros (doc1 & doc2 & H1 & _). vm_compute in H1. discriminate H1.
Qed.

(* ================================================================== *)
(** * The funnel rule                                                  *)
(* ================================================================== *)

(** C7: every funnel request gets a document whose stage channel
    ([encoding.y]) has [sort] null and whose color channel has [legend] null,
    and whose [data.values] is the caller's list of records as given.  For the
    stages Leads, Qualified, Closed the rows come out in that order whatever
    the three values are, 100, 40, 10 among them. *)
Theorem funnel_keeps_caller_order :
  forall now t xf yf cf desc ins e,
    (forall d, exists doc,
       snd (generate e (VizRequest_init now t "funnel" d xf yf cf desc ins)) = Ok doc /\
       at_path [K "encoding"; K "y"; K "sort"] doc = Some JNull /\
       at_path [K "encoding"; K "color"; K "legend"] doc = Some JNull /\
       at_path [K "data"; K "values"] doc = Some (rows d)) /\
    (forall v1 v2 v3, exists doc,
       snd (visualize_funnel {| engine := e |} now t
              [ "Leads"; "Qualified"; "Closed" ] [ v1; v2; v3 ] ins) = Ok doc /\
       at_path [K "encoding"; K "y"; K "sort"] doc = Some JNull /\
       at_path [K "encoding"; K "y"; K "field"] doc = Some (JStr "stage") /\
       at_path [K "data"; K "values"] doc =
         Some (JList
           [ JObj [ ("stage", JStr "Leads"); ("value", v1); ("order", JInt 0) ];
             JObj [ ("stage", JStr "Qualified"); ("value", v2); ("order", JInt 1) ];
             JObj [ ("stage", JStr "Closed"); ("value", v3); ("order", JInt 2) ] ])) /\
    (exists doc,
       snd (visualize_funnel {| engine := e |} now t
              [ "Leads"; "Qualified"; "Closed" ] [ JInt 100; JInt 40; JInt 10 ] ins) = Ok doc /\
       at_path [K "data"; K "values"; I 0; K "stage"] doc = Some (JStr "Leads") /\
       at_path [K "data"; K "values"; I 1; K "stage"] doc = Some (JStr "Qualified") /\
       at_path [K "data"; K "values"; I 2; K "stage"] doc = Some (JStr "Closed")).
Proof.
  intros now t xf yf cf desc ins e.
  repeat split; intros; eexists; repeat split; reflexivity.
Qed.

(* ================================================================== *)
(** * Default field names                                              *)
(* ================================================================== *)

(** Every place of the table holds [attribute or "default"] as the
    generators compute it. *)
Lemma default_fields_or (kind : string) (entries : list (list step * attr * string)) :
  In (kind, entries) default_fields ->
  forall now t d xf yf cf desc ins,
    let request := VizRequest_init now t kind d xf yf cf desc ins in
    exists doc,
      run_generator request = Ok doc /\
      forall path a dflt, In (path, a, dflt) entries ->
        at_path path doc = Some (JStr (Py.or_str (attr_of a request) dflt)).
Proof.
  intros Hk now t d xf yf cf desc ins request. subst request.
  simpl in Hk.
  repeat (destruct Hk as [Hk | Hk];
          [ injection Hk as <- <-; eexists; split;
            [ reflexivity
            | intros path a dflt Hin; simpl in Hin;
              repeat (destruct Hin as [Hin | Hin];
                      [ injection Hin as <- <- <-; reflexivity | ]);
              contradiction Hin ]
          | ]).
  contradiction Hk.
Qed.

(** C6, as the code has it: for each of the eight kinds with default
    field names, and each place of the table, the document holds the default
    name when the request leaves the attribute out, the default name again
    when the attribute is the empty string, and the supplied name whenever it
    is a non-empty string. *)
Theorem default_fields_and_overrides (kind : string)
    (entries : list (list step * attr * string)) :
  In (kind, entries) default_fields ->
  forall now t d xf yf cf desc ins e,
    let request := VizRequest_init now t kind d xf yf cf desc ins in
    exists doc,
      snd (generate e request) = Ok doc /\
      forall path a dflt, In (path, a, dflt) entries ->
        (attr_of a request = None -> at_path path doc = Some (JStr dflt)) /\
        (attr_of a request = Some "" -> at_path path doc = Some (JStr dflt)) /\
        (forall s, attr_of a request = Some s -> s <> "" ->
                   at_path path doc = Some (JStr s)).
Proof.
  intros Hk now t d xf yf cf desc ins e request.
  destruct (default_fields_or kind entries Hk now t d xf yf cf desc ins)
    as (doc & Hrun & Hfields).
  exists doc. rewrite generate_result. split; [ exact Hrun | ].
  intros path a dflt Hin. rewrite (Hfields path a dflt Hin).
  fold request. repeat split.
  - intros ->. reflexivity.
  - intros ->. reflexivity.
  - intros s -> Hs. now rewrite or_str_Some.
Qed.

Lemma default_fields_and_overrides_witness :
  let entries :=
    [ ([K "encoding"; K "y"; K "field"], AX, "stage");
      ([K "encoding"; K "x"; K "field"], AY, "value");
      ([K "encoding"; K "color"; K "field"], AX, "stage") ] in
  In ("funnel", entries) default_fields /\
  let request :=
    VizRequest_init "2024-05-01T10:00:00" "Pipeline" "funnel" [] (Some "step") None None "" "" in
  exists doc,
    snd (generate DynamicVizEngine_init request) = Ok doc /\
    forall path a dflt, In (path, a, dflt) entries ->
      (attr_of a request = None -> at_path path doc = Some (JStr dflt)) /\
      (attr_of a request = Some "" -> at_path path doc = Some (JStr dflt)) /\
      (forall s, attr_of a request = Some s -> s <> "" ->
                 at_path path doc = Some (JStr s)).
Proof.
  intros entries.
  assert (H : In ("funnel", entries) default_fields)
    by (simpl; do 4 right; left; reflexivity).
  split; [ exact H | ].
  exact (default_fields_and_overrides "funnel" entries H "2024-05-01T10:00:00" "Pipeline"
           [] (Some "step") None None "" "" DynamicVizEngine_init).
Defined.

(** C6 read literally fails: an x_field given as the empty string does
    not take precedence, the bar document names the default [category]. *)
Lemma empty_field_name_counterexample :
  let request :=
    VizRequest_init "2024-05-01T10:00:00" "Share" "bar" [] (Some "") None None "" "" in
  x_field request = Some "" /\
  exists doc,
    snd (generate DynamicVizEngine_init request) = Ok doc /\
    at_path [K "encoding"; K "x"; K "field"] doc = Some (JStr "category") /\
    at_path [K "encoding"; K "x"; K "field"] doc
      <> Some (JStr (claimed_field (x_field request) "category")).
Proof.
  split; [ reflexivity | ].
  eexists. split; [ reflexivity | ]. split; [ reflexivity | ].
  vm_compute. discriminate.
Qed.


(** The color channel of a bar names the color field, else the x field,
    else [category]; an empty string counts as left out at both steps. *)
Lemma bar_color_field (r : VizRequest) :
  at_path [K "encoding"; K "color"; K "field"] (_gen_bar r) =
    Some (JStr (claimed_field (nonempty (color_field r))
                  (claimed_field (nonempty (x_field r)) "category"))).
Proof.
  change (at_path [K "encoding"; K "color"; K "field"] (_gen_bar r))
    with (Some (JStr (Py.or_str (Py.or_ (color_field r) (x_field r)) "category"))).
  do 2 f_equal.
  unfold nonempty, claimed_field, Py.or_str, Py.or_, Py.truthy.
  destruct (color_field r) as [c |]; destruct (x_field r) as [x |]; cbv beta iota;
    repeat match goal with
    | |- context [ (?s =? "") ] =>
        destruct (String.eqb_spec s ""); cbv beta iota delta [negb]
    end;
    first [ reflexivity | congruence ].
Qed.

(* ================================================================== *)
(** * Color sourcing                                                   *)
(* ================================================================== *)










Local Arguments Py.or_str : simpl never.
Local Arguments rows : simpl never.








(** What [color_slots] collects on a gauge document: the title colors,
    the background, the axis and legend colors and the two-color range. *)
Example color_slots_gauge :
  forall doc,
    run_generator (VizRequest_init "2024-05-01T10:00:00" "Score" "gauge"
                     [ [ ("value", JInt 85) ] ] None None None "" "") = Ok doc ->
    color_slots doc =
      [ "#e2e8f0"; "#94a3b8"; "#111827"; "#94a3b8"; "#e2e8f0"; "#374151";
        "#94a3b8"; "#e2e8f0"; "#00F5FF"; "#1e293b" ].
Proof. intros doc H. injection H as <-. reflexivity. Qed.










(* ================================================================== *)
(** * The shape every document shares                                  *)
(* ================================================================== *)

Lemma eqb_neq_sym (k s : string) : k <> s -> (s =? k) = false.
Proof. intros H. apply String.eqb_neq. congruence. Qed.

(** Case analysis on the document a call returned: [H] states
    [run_generator r = Ok doc]; [tac] closes the goal for each generator. *)
Ltac all_documents r H tac :=
  let g := fresh "g" in
  let Hin := fresh "Hin" in
  let Hg := fresh "Hg" in
  destruct (run_generator_cases r) as [Hg | (g & Hin & Hg)]; rewrite Hg in H;
  [ unfold _gen_gauge in H;
    destruct (gauge_value r); simpl in H; try discriminate H;
    injection H as <-; tac
  | injection H as <-; simpl in Hin;
    repeat (destruct Hin as [Hin | Hin]; [ subst g; tac | ]);
    contradiction Hin ].

(** Case analysis on the kind of a request: [H] states
    [run_generator r = Ok doc]; the goal may mention [chart_type r]. *)
Ltac by_kind r H tac :=
  unfold run_generator, Py.get_default in H; cbv [generators Py.get] in H;
  repeat match type of H with
  | context [ (?k =? chart_type r) ] =>
      let E := fresh "E" in
      destruct (String.eqb_spec k (chart_type r)) as [E | E];
      [ rewrite <- E; cbv beta iota in H; tac | apply eqb_neq_sym in E ]
  end;
  cbv beta iota in H; tac.

(** Replace the document of [H : g r = Ok doc] by what [g] builds. *)
Ltac open_document r H :=
  first
    [ injection H as <-
    | unfold _gen_gauge in H; destruct (gauge_value r); simpl in H;
      try discriminate H; injection H as <- ].

(** What closes a goal about a document once the generator is known. *)
Ltac document_fact r H :=
  open_document r H;
  repeat match goal with
  | E : (chart_type r =? _) = false |- _ => rewrite E; clear E
  end;
  repeat split; reflexivity.

(** X1: every document generate returns, for any request and kind, has
    exactly the keys "$schema", "title", "width", "height", "data", "config",
    "mark", "encoding", each once and in this order, and its "$schema" is the
    Vega-Lite v5 schema address. *)
Theorem document_envelope (e : DynamicVizEngine) (r : VizRequest) (doc : dict) :
  snd (generate e r) = Ok doc ->
  map fst doc = ENVELOPE /\
  at_path [K "$schema"] doc =
    Some (JStr "https://vega.github.io/schema/vega-lite/v5.json").
Proof.
  rewrite generate_result. intros H.
  all_documents r H ltac:(split; reflexivity).
Qed.

Lemma document_envelope_witness :
  exists doc,
    snd (generate DynamicVizEngine_init (demo "gauge")) = Ok doc /\
    map fst doc = ENVELOPE /\
    at_path [K "$schema"] doc =
      Some (JStr "https://vega.github.io/schema/vega-lite/v5.json").
Proof.
  assert (H : snd (generate DynamicVizEngine_init (demo "gauge")) =
              Ok (match run_generator (demo "gauge") with Ok d => d | Raise _ => [] end))
    by reflexivity.
  exact (ex_intro _ _ (conj H (document_envelope _ _ _ H))).
Defined.

(** X2: the styling of a document does not depend on the request or its
    kind: "config" is always the same block (background, no view stroke, axis
    and legend colors), and the title block is the request's title as text in
    the brand text color, anchored at the start at size 16, with the insight
    as subtitle, or a null subtitle when the insight is the empty string. *)
Theorem document_styling (e : DynamicVizEngine) (r : VizRequest) (doc : dict) :
  snd (generate e r) = Ok doc ->
  at_path [K "config"] doc = Some CONFIG /\
  at_path [K "title"] doc =
    Some (JObj
      [ ("text", JStr (title r));
        ("color", JStr "#e2e8f0");
        ("anchor", JStr "start");
        ("fontSize", JInt 16);
        ("subtitle", if insight r =? "" then JNull else JStr (insight r));
        ("subtitleColor", JStr "#94a3b8") ]).
Proof.
  rewrite generate_result. intros H.
  all_documents r H ltac:(split; reflexivity).
Qed.

Lemma document_styling_witness :
  exists doc,
    snd (generate DynamicVizEngine_init (demo "heatmap")) = Ok doc /\
    at_path [K "config"] doc = Some CONFIG /\
    at_path [K "title"] doc =
      Some (JObj
        [ ("text", JStr "Demo");
          ("color", JStr "#e2e8f0");
          ("anchor", JStr "start");
          ("fontSize", JInt 16);
          ("subtitle", JStr "note");
          ("subtitleColor", JStr "#94a3b8") ]).
Proof.
  assert (H : snd (generate DynamicVizEngine_init (demo "heatmap")) =
              Ok (match run_generator (demo "heatmap") with Ok d => d | Raise _ => [] end))
    by reflexivity.
  exact (ex_intro _ _ (conj H (document_styling _ _ _ H))).
Defined.

(** X3: the canvas of a document is 400 by 250, except for a gauge,
    which is 200 by 200, and a timeline, which is 400 by 80; a request whose
    chart_type is outside the table is drawn as a bar at 400 by 250. *)
Theorem document_canvas (e : DynamicVizEngine) (r : VizRequest) (doc : dict) :
  snd (generate e r) = Ok doc ->
  at_path [K "width"] doc = Some (JInt (fst (canvas (chart_type r)))) /\
  at_path [K "height"] doc = Some (JInt (snd (canvas (chart_type r)))).
Proof.
  rewrite generate_result. intros H. unfold canvas.
  by_kind r H ltac:(document_fact r H).
Qed.

Lemma document_canvas_witness :
  exists doc,
    snd (generate DynamicVizEngine_init (demo "timeline")) = Ok doc /\
    at_path [K "width"] doc = Some (JInt 400) /\
    at_path [K "height"] doc = Some (JInt 80).
Proof.
  assert (H : snd (generate DynamicVizEngine_init (demo "timeline")) =
              Ok (match run_generator (demo "timeline") with Ok d => d | Raise _ => [] end))
    by reflexivity.
  exact (ex_intro _ _ (conj H (document_canvas _ _ _ H))).
Defined.

(** X4: the mark type of a document is fixed by the kind: "line" for a
    line, "circle" for scatter and timeline, "arc" for pie, gauge and
    radial, "rect" for a heatmap (given as a plain string), and "bar" for
    bar, funnel and any chart_type outside the table. *)
Theorem document_mark (e : DynamicVizEngine) (r : VizRequest) (doc : dict) :
  snd (generate e r) = Ok doc ->
  mark_type doc = Some (mark_of_kind (chart_type r)) /\
  (chart_type r = "heatmap" -> at_path [K "mark"] doc = Some (JStr "rect")).
Proof.
  rewrite generate_result. intros H. unfold mark_of_kind.
  by_kind r H
    ltac:(open_document r H;
          (split;
           [ repeat match goal with
             | E : (chart_type r =? _) = false |- _ => rewrite E
             end;
             reflexivity
           | intros Hk;
             first
               [ discriminate Hk
               | reflexivity
               | match goal with
                 | E : (chart_type r =? "heatmap") = false |- _ =>
                     rewrite Hk in E; vm_compute in E; discriminate E
                 end ] ])).
Qed.

Lemma document_mark_witness :
  chart_type (demo "heatmap") = "heatmap" /\
  exists doc,
    snd (generate DynamicVizEngine_init (demo "heatmap")) = Ok doc /\
    mark_type doc = Some "rect" /\
    at_path [K "mark"] doc = Some (JStr "rect").
Proof.
  assert (Hk : chart_type (demo "heatmap") = "heatmap") by reflexivity.
  assert (H : snd (generate DynamicVizEngine_init (demo "heatmap")) =
              Ok (match run_generator (demo "heatmap") with Ok d => d | Raise _ => [] end))
    by reflexivity.
  split; [ exact Hk | ].
  exact (ex_intro _ _
           (conj H (conj (proj1 (document_mark _ _ _ H))
                         (proj2 (document_mark _ _ _ H) Hk)))).
Defined.

(** X5: the data of a document: for every kind but the gauge,
    "data.values" is the caller's list of records exactly as given, whatever
    the records hold; for the gauge it is always the two rows Value and
    Remaining, holding the gauge value and 100 minus it. *)
Theorem document_data (e : DynamicVizEngine) (r : VizRequest) (doc : dict) :
  snd (generate e r) = Ok doc ->
  if chart_type r =? "gauge"
  then exists remaining,
         Py.int_sub 100 (gauge_value r) = Ok remaining /\
         at_path [K "data"; K "values"] doc = Some (gauge_rows (gauge_value r) remaining)
  else at_path [K "data"; K "values"] doc = Some (rows (data r)).
Proof.
  rewrite generate_result. intros H.
  by_kind r H
    ltac:(first
            [ injection H as <-;
              repeat match goal with
              | E : (chart_type r =? _) = false |- _ => rewrite E
              end;
              reflexivity
            | unfold _gen_gauge in H;
              destruct (Py.int_sub 100 (gauge_value r)) as [remaining |] eqn:Hsub;
              [ | discriminate H ];
              injection H as <-; exists remaining; split; reflexivity ]).
Qed.

Lemma document_data_witness :
  exists doc,
    snd (generate DynamicVizEngine_init (demo "scatter")) = Ok doc /\
    at_path [K "data"; K "values"] doc =
      Some (JList [ JObj [ ("date", JStr "2024-04-30"); ("value", JInt 3) ] ]).
Proof.
  assert (H : snd (generate DynamicVizEngine_init (demo "scatter")) =
              Ok (match run_generator (demo "scatter") with Ok d => d | Raise _ => [] end))
    by reflexivity.
  exact (ex_intro _ _ (conj H (document_data _ _ _ H))).
Defined.

(* ================================================================== *)
(** * What the generators do not read                                  *)
(* ================================================================== *)

(** X6: attributes a rule ignores.  The description never changes the
    document, for any kind.  The color field changes nothing for line, pie,
    gauge, funnel and radial requests; the y field changes nothing for a
    timeline; the x field changes nothing for a gauge. *)
Theorem ignored_attributes :
  forall t k d xf yf cf desc ins now e1 e2,
    let r := Build_VizRequest t k d xf yf cf desc ins now in
    (forall desc',
       snd (generate e1 r) =
       snd (generate e2 (Build_VizRequest t k d xf yf cf desc' ins now))) /\
    (In k [ "line"; "pie"; "gauge"; "funnel"; "radial" ] ->
     forall cf',
       snd (generate e1 r) =
       snd (generate e2 (Build_VizRequest t k d xf yf cf' desc ins now))) /\
    (k = "timeline" ->
     forall yf',
       snd (generate e1 r) =
       snd (generate e2 (Build_VizRequest t k d xf yf' cf desc ins now))) /\
    (k = "gauge" ->
     forall xf',
       snd (generate e1 r) =
       snd (generate e2 (Build_VizRequest t k d xf' yf cf desc ins now))).
Proof.
  intros t k d xf yf cf desc ins now e1 e2 r. subst r.
  repeat split; intros; rewrite !generate_result.
  - cbv [run_generator Py.get_default generators Py.get chart_type].
    repeat match goal with
    | |- context [ (?c =? k) ] => destruct (c =? k); [ reflexivity | ]
    end.
    reflexivity.
  - match goal with Hk : In k _ |- _ => simpl in Hk;
      repeat (destruct Hk as [Hk | Hk]; [ subst k; reflexivity | ]);
      contradiction Hk
    end.
  - subst k. reflexivity.
  - subst k. reflexivity.
Qed.

(** X7: a gauge document is determined by the title, the insight and the
    gauge value alone: two gauge requests that agree on these get the same
    outcome, whatever their further rows, further entries of the first row,
    field names and description are. *)
Theorem gauge_reads_first_value_only (r1 r2 : VizRequest) :
  chart_type r1 = "gauge" ->
  chart_type r2 = "gauge" ->
  title r1 = title r2 ->
  insight r1 = insight r2 ->
  gauge_value r1 = gauge_value r2 ->
  forall e1 e2, snd (generate e1 r1) = snd (generate e2 r2).
Proof.
  intros Hk1 Hk2 Ht Hi Hv e1 e2.
  rewrite !generate_result, !run_generator_gauge by assumption.
  unfold _gen_gauge. rewrite Hv.
  destruct (Py.int_sub 100 (gauge_value r2)) as [remaining |]; [ | reflexivity ].
  cbv [bind _base_spec]. rewrite Ht, Hi. reflexivity.
Qed.

Lemma gauge_reads_first_value_only_witness :
  let r1 :=
    VizRequest_init "2024-05-01T10:00:00" "Score" "gauge"
      [ [ ("value", JInt 85); ("max", JInt 200) ]; [ ("value", JInt 1) ] ]
      (Some "team") None (Some "region") "first" "up" in
  let r2 :=
    VizRequest_init "2024-05-02T09:30:00" "Score" "gauge"
      [ [ ("score", JInt 85) ] ]
      None (Some "score") None "second" "up" in
  snd (generate DynamicVizEngine_init r1) = snd (generate DynamicVizEngine_init r2).
Proof.
  intros r1 r2.
  exact (gauge_reads_first_value_only r1 r2 eq_refl eq_refl eq_refl eq_refl eq_refl
           DynamicVizEngine_init DynamicVizEngine_init).
Defined.

(** X8: the color channel of a bar chart names the color field when one
    is given and not empty; otherwise it names the same field as the x
    channel, so the bars are colored by their category; its legend is
    always suppressed. *)
Theorem bar_color_follows_x :
  forall now t d xf yf cf desc ins e,
    let request := VizRequest_init now t "bar" d xf yf cf desc ins in
    exists doc,
      snd (generate e request) = Ok doc /\
      at_path [K "encoding"; K "color"; K "legend"] doc = Some JNull /\
      (Py.truthy cf = false ->
       at_path [K "encoding"; K "color"; K "field"] doc =
       at_path [K "encoding"; K "x"; K "field"] doc) /\
      (forall s, cf = Some s -> s <> "" ->
       at_path [K "encoding"; K "color"; K "field"] doc = Some (JStr s)).
Proof.
  intros now t d xf yf cf desc ins e request.
  exists (_gen_bar request). rewrite generate_result.
  split; [ reflexivity | ]. split; [ reflexivity | ].
  change (at_path [K "encoding"; K "color"; K "field"] (_gen_bar request))
    with (Some (JStr (Py.or_str (Py.or_ cf xf) "category"))).
  change (at_path [K "encoding"; K "x"; K "field"] (_gen_bar request))
    with (Some (JStr (Py.or_str xf "category"))).
  split.
  - intros Hcf. unfold Py.or_ at 1. now rewrite Hcf.
  - intros s -> Hs. unfold Py.or_, Py.truthy.
    destruct (String.eqb_spec s ""); [ contradiction | ].
    cbv beta iota delta [negb]. now rewrite or_str_Some.
Qed.

(* ================================================================== *)
(** * The wrappers of the assistant                                    *)
(* ================================================================== *)

Lemma get_path_app (p q : list step) (j : json) :
  get_path (p ++ q) j =
    match get_path p j with
    | Some v => get_path q v
    | None => None
    end.
Proof.
  revert j. induction p as [| s p IH]; intros j; simpl; [ reflexivity | ].
  destruct s as [k | n], j; try reflexivity.
  - destruct (Py.get k kvs); [ apply IH | reflexivity ].
  - destruct (nth_error l n); [ apply IH | reflexivity ].
Qed.

(** Row [i] of a document that embeds the rows [d]. *)
Lemma row_at (doc : dict) (d : list dict) (i : nat) :
  at_path [K "data"; K "values"] doc = Some (rows d) ->
  at_path [K "data"; K "values"; I i] doc = option_map JObj (nth_error d i).
Proof.
  unfold at_path. intros H.
  change [K "data"; K "values"; I i] with ([K "data"; K "values"] ++ [I i]).
  rewrite get_path_app, H. unfold rows. simpl.
  rewrite nth_error_map.
  assert (Hid : forall o : option json,
            match o with Some v => Some v | None => None end = o)
    by (intros [v |]; reflexivity).
  apply Hid.
Qed.

Lemma assistant_generate_eq (a : AIVizAssistant) (r : VizRequest) :
  assistant_generate a r =
    ({| engine := fst (generate (engine a) r) |}, run_generator r).
Proof.
  unfold assistant_generate. rewrite <- (generate_result (engine a) r).
  now destruct (generate (engine a) r).
Qed.

Lemma nth_error_zip_map {A B C : Type} (f : A * B -> C) (l : list A) (l' : list B) (i : nat) :
  nth_error (map f (combine l l')) i =
    match nth_error l i, nth_error l' i with
    | Some a, Some b => Some (f (a, b))
    | _, _ => None
    end.
Proof.
  revert l' i. induction l as [| a l IH]; intros [| b l'] [| i]; simpl; try reflexivity.
  - now destruct (nth_error l i).
  - apply IH.
Qed.

Lemma nth_error_enumerate_from {A : Type} (k : Z) (l : list A) (i : nat) :
  nth_error (enumerate_from k l) i =
    option_map (fun a => ((k + Z.of_nat i)%Z, a)) (nth_error l i).
Proof.
  revert k i. induction l as [| a l IH]; intros k [| i]; simpl; try reflexivity.
  - now rewrite Z.add_0_r.
  - rewrite IH. destruct (nth_error l i); simpl; [ | reflexivity ].
    do 2 f_equal. lia.
Qed.

(** X9: the rows the comparison, distribution and trend wrappers build
    pair the two lists position by position and stop at the shorter one:
    there are min(len, len) rows, row [i] exists exactly when both lists
    have an element [i], and it holds that label and that value; surplus
    labels or values are dropped without an error. *)
Theorem zip_rows_truncate (labels : list string) (values : list json) :
  length (category_rows labels values) = Nat.min (length labels) (length values) /\
  length (date_rows labels values) = Nat.min (length labels) (length values) /\
  (forall i,
     nth_error (category_rows labels values) i =
       match nth_error labels i, nth_error values i with
       | Some c, Some v => Some [ ("category", JStr c); ("value", v) ]
       | _, _ => None
       end) /\
  (forall i,
     nth_error (date_rows labels values) i =
       match nth_error labels i, nth_error values i with
       | Some d, Some v => Some [ ("date", JStr d); ("value", v) ]
       | _, _ => None
       end).
Proof.
  unfold category_rows, date_rows. repeat split.
  - now rewrite length_map, length_combine.
  - now rewrite length_map, length_combine.
  - intros i. now rewrite nth_error_zip_map.
  - intros i. now rewrite nth_error_zip_map.
Qed.

Lemma category_rows_keys (labels : list string) (values : list json) :
  Forall (fun row => has_key "category" row /\ has_key "value" row)
         (category_rows labels values).
Proof.
  unfold category_rows. apply Forall_forall. intros row Hin.
  apply in_map_iff in Hin as [[c v] [<- _]]. split; discriminate.
Qed.

Lemma date_rows_keys (labels : list string) (values : list json) :
  Forall (fun row => has_key "date" row /\ has_key "value" row)
         (date_rows labels values).
Proof.
  unfold date_rows. apply Forall_forall. intros row Hin.
  apply in_map_iff in Hin as [[c v] [<- _]]. split; discriminate.
Qed.

(** X10: the comparison, distribution and trend wrappers never raise,
    whatever the labels and values are and however long the two lists: each
    returns a bar, arc or line document that embeds the zipped rows, whose
    channels name the two keys every row has, and appends exactly one record
    to the history. *)
Theorem zip_wrappers_return :
  forall a now t labels values ins,
    (exists doc,
       visualize_comparison a now t labels values ins =
         ({| engine := {| generated_charts :=
               get_chart_history a ++
               [ chart_record
                   (VizRequest_init now t "bar" (category_rows labels values)
                      (Some "category") (Some "value") None "" ins) doc ] |} |},
          Ok doc) /\
       mark_type doc = Some "bar" /\
       at_path [K "data"; K "values"] doc = Some (rows (category_rows labels values)) /\
       at_path [K "encoding"; K "x"; K "field"] doc = Some (JStr "category") /\
       at_path [K "encoding"; K "y"; K "field"] doc = Some (JStr "value") /\
       Forall (fun row => has_key "category" row /\ has_key "value" row)
              (category_rows labels values)) /\
    (exists doc,
       visualize_distribution a now t labels values ins =
         ({| engine := {| generated_charts :=
               get_chart_history a ++
               [ chart_record
                   (VizRequest_init now t "pie" (category_rows labels values)
                      (Some "category") (Some "value") None "" ins) doc ] |} |},
          Ok doc) /\
       mark_type doc = Some "arc" /\
       at_path [K "data"; K "values"] doc = Some (rows (category_rows labels values)) /\
       at_path [K "encoding"; K "color"; K "field"] doc = Some (JStr "category") /\
       at_path [K "encoding"; K "theta"; K "field"] doc = Some (JStr "value") /\
       Forall (fun row => has_key "category" row /\ has_key "value" row)
              (category_rows labels values)) /\
    (exists doc,
       visualize_trend a now t labels values ins =
         ({| engine := {| generated_charts :=
               get_chart_history a ++
               [ chart_record
                   (VizRequest_init now t "line" (date_rows labels values)
                      (Some "date") (Some "value") None "" ins) doc ] |} |},
          Ok doc) /\
       mark_type doc = Some "line" /\
       at_path [K "data"; K "values"] doc = Some (rows (date_rows labels values)) /\
       at_path [K "encoding"; K "x"; K "field"] doc = Some (JStr "date") /\
       at_path [K "encoding"; K "y"; K "field"] doc = Some (JStr "value") /\
       Forall (fun row => has_key "date" row /\ has_key "value" row)
              (date_rows labels values)).
Proof.
  intros a now t labels values ins.
  unfold visualize_comparison, visualize_distribution, visualize_trend.
  rewrite !assistant_generate_eq.
  repeat split.
  - eexists. split; [ reflexivity | ].
    repeat split; try reflexivity. apply category_rows_keys.
  - eexists. split; [ reflexivity | ].
    repeat split; try reflexivity. apply category_rows_keys.
  - eexists. split; [ reflexivity | ].
    repeat split; try reflexivity. apply date_rows_keys.
Qed.

Lemma visualize_funnel_result (a : AIVizAssistant) (now t : string)
    (stages : list string) (values : list json) (ins : string) :
  snd (visualize_funnel a now t stages values ins) =
    run_generator
      (VizRequest_init now t "funnel"
         (map (fun '(i, (s, v)) => [ ("stage", JStr s); ("value", v); ("order", JInt i) ])
              (enumerate_from 0 (combine stages values)))
         (Some "stage") (Some "value") None "" ins).
Proof.
  unfold visualize_funnel.
  match goal with
  | |- context [ generate ?e ?r ] =>
      rewrite <- (generate_result e r); now destruct (generate e r)
  end.
Qed.

(** X11: the funnel wrapper numbers its rows: row [i] of the document
    exists exactly when both lists have an element [i], and holds that
    stage, that value and [order = i]; the stage channel reads "stage", the
    width channel reads "value", and no channel reads "order". *)
Theorem funnel_rows_indexed :
  forall a now t stages values ins,
    exists doc,
      snd (visualize_funnel a now t stages values ins) = Ok doc /\
      (forall i,
         at_path [K "data"; K "values"; I i] doc =
           match nth_error stages i, nth_error values i with
           | Some s, Some v =>
               Some (JObj [ ("stage", JStr s); ("value", v);
                            ("order", JInt (Z.of_nat i)) ])
           | _, _ => None
           end) /\
      at_path [K "encoding"; K "y"; K "field"] doc = Some (JStr "stage") /\
      at_path [K "encoding"; K "x"; K "field"] doc = Some (JStr "value") /\
      at_path [K "encoding"; K "color"; K "field"] doc = Some (JStr "stage") /\
      at_path [K "encoding"; K "y"; K "sort"] doc = Some JNull.
Proof.
  intros a now t stages values ins.
  rewrite visualize_funnel_result.
  eexists. split; [ reflexivity | ].
  split; [ | repeat split; reflexivity ].
  intros i. rewrite row_at with (d :=
    map (fun '(i, (s, v)) => [ ("stage", JStr s); ("value", v); ("order", JInt i) ])
        (enumerate_from 0 (combine stages values))) by reflexivity.
  rewrite nth_error_map, nth_error_enumerate_from.
  pose proof (nth_error_zip_map (fun p : string * json => p) stages values i) as Hz.
  rewrite map_id in Hz. rewrite Hz.
  destruct (nth_error stages i), (nth_error values i); reflexivity.
Qed.

(** X12: the metric wrapper.  When the value is a number (a bool counts)
    it returns a gauge document with the rows value and 100 minus value, the
    same document for every max_value, and appends one record; when the
    value is anything else it raises TypeError and leaves the assistant, and
    so its history, as it was. *)
Theorem metric_number_or_type_error :
  forall a now t value m ins,
    if is_number value
    then exists doc remaining,
           Py.int_sub 100 value = Ok remaining /\
           (forall m', snd (visualize_metric a now t value m' ins) = Ok doc) /\
           at_path [K "data"; K "values"] doc = Some (gauge_rows value remaining) /\
           length (get_chart_history (fst (visualize_metric a now t value m ins))) =
             S (length (get_chart_history a))
    else visualize_metric a now t value m ins = (a, Raise TypeError).
Proof.
  intros [[h]] now t value m ins.
  pose (r := VizRequest_init now t "gauge" [ [ ("value", value); ("max", m) ] ]
               None (Some "value") None "" ins).
  pose (d := match run_generator r with Ok doc => doc | Raise _ => [] end).
  unfold visualize_metric, generate, get_chart_history.
  destruct value; simpl is_number; cbv iota.
  all: try reflexivity.
  all: exists d; subst d r; eexists; split; [ reflexivity | ];
       split; [ intros m'; reflexivity | ]; split; [ reflexivity | ].
  all: cbn [fst engine generated_charts]; simpl;
       rewrite length_app; simpl; lia.
Qed.

(* ================================================================== *)
(** * Failure, and what the history holds                              *)
(* ================================================================== *)

(** X13: generate raises in exactly one situation, a gauge request whose
    value is not a number, and the exception is TypeError; a call that
    raises leaves the engine, and so the history, as it was. *)
Theorem generate_raises_exactly (e : DynamicVizEngine) (r : VizRequest) :
  (forall x, snd (generate e r) = Raise x ->
     x = TypeError /\ chart_type r = "gauge" /\ is_number (gauge_value r) = false) /\
  (chart_type r = "gauge" -> is_number (gauge_value r) = false ->
     generate e r = (e, Raise TypeError)).
Proof.
  split.
  - intros x H. destruct x. split; [ reflexivity | ].
    now apply (generate_raises_iff e r).
  - intros Hk Hn. unfold generate.
    rewrite run_generator_gauge by exact Hk.
    now rewrite (proj2 (gen_gauge_raises_iff r) Hn).
Qed.

Lemma run_generator_keys (r : VizRequest) (doc : dict) :
  run_generator r = Ok doc -> map fst doc = ENVELOPE.
Proof.
  intros H. all_documents r H ltac:(reflexivity).
Qed.

(** X14: every entry of the history records a call: it has the two keys
    "request" and "spec", its request part has the nine keys of to_dict, and
    its spec part is the document the generators return for that request.
    Calls to generate, raising ones included, keep this true. *)
Theorem history_records_calls (e : DynamicVizEngine) (rs : list VizRequest) :
  Forall records_a_call (generated_charts e) ->
  Forall (fun entry =>
            records_a_call entry /\
            map fst entry = [ "request"; "spec" ] /\
            (exists req, Py.get "request" entry = Some (JObj req) /\
                         map fst req = REQUEST_KEYS) /\
            (exists doc, Py.get "spec" entry = Some (JObj doc) /\
                         map fst doc = ENVELOPE))
         (generated_charts (fst (generate_all e rs))).
Proof.
  intros Hinv.
  assert (Hall : Forall records_a_call (generated_charts (fst (generate_all e rs)))).
  { rewrite generate_all_history. apply Forall_app. split; [ exact Hinv | ].
    induction rs as [| r rs IH]; simpl; [ constructor | ].
    destruct (run_generator r) as [doc |] eqn:Hr; [ | exact IH ].
    constructor; [ | exact IH ]. now exists r, doc. }
  apply Forall_forall. intros entry Hin.
  rewrite Forall_forall in Hall. specialize (Hall entry Hin).
  split; [ exact Hall | ].
  destruct Hall as (r & doc & Hr & ->).
  split; [ reflexivity | ]. split.
  - exists (to_dict r). split; reflexivity.
  - exists doc. split; [ reflexivity | ].
    now apply (run_generator_keys r).
Qed.

Lemma history_records_calls_witness :
  let rs :=
    [ demo "bar";
      VizRequest_init "2024-05-01T10:00:00" "Score" "gauge" [ [ ("value", JStr "high") ] ]
                      None None None "" "";
      demo "gauge" ] in
  Forall records_a_call (generated_charts DynamicVizEngine_init) /\
  Forall (fun entry =>
            records_a_call entry /\
            map fst entry = [ "request"; "spec" ] /\
            (exists req, Py.get "request" entry = Some (JObj req) /\
                         map fst req = REQUEST_KEYS) /\
            (exists doc, Py.get "spec" entry = Some (JObj doc) /\
                         map fst doc = ENVELOPE))
         (generated_charts (fst (generate_all DynamicVizEngine_init rs))).
Proof.
  intros rs.
  assert (H : Forall records_a_call (generated_charts DynamicVizEngine_init))
    by constructor.
  exact (conj H (history_records_calls DynamicVizEngine_init rs H)).
Defined.

(* ================================================================== *)
(** * Requests, their dictionaries, and the untyped entry point        *)
(* ================================================================== *)

Lemma as_dicts_rows (d : list dict) : as_dicts (map JObj d) = Some d.
Proof.
  induction d as [| row d IH]; simpl; [ reflexivity | ]. now rewrite IH.
Qed.

Lemma as_opt_str_of_opt (o : option string) : as_opt_str (Some (Py.of_opt o)) = Some o.
Proof. now destruct o. Qed.

Lemma of_opt_inj (a b : option string) : Py.of_opt a = Py.of_opt b -> a = b.
Proof. destruct a, b; simpl; congruence. Qed.

Lemma map_JObj_inj (a b : list dict) : map JObj a = map JObj b -> a = b.
Proof.
  revert b. induction a as [| x a IH]; intros [| y b]; simpl; try discriminate.
  - reflexivity.
  - intros H. injection H as Hx Hab. f_equal; [ exact Hx | now apply IH ].
Qed.

(** What [generate_from_dict] constructs from a serialised request. *)
Lemma request_from_to_dict (now : string) (r : VizRequest) :
  request_from_dict now (to_dict r) =
    Some (VizRequest_init now (title r) (chart_type r) (data r)
            (x_field r) (y_field r) (color_field r) (description r) (insight r)).
Proof.
  unfold request_from_dict, to_dict, Py.get_default.
  cbn [Py.get String.eqb Ascii.eqb Bool.eqb as_str as_rows].
  unfold rows. cbn [as_rows]. rewrite as_dicts_rows, !as_opt_str_of_opt.
  reflexivity.
Qed.

(** Rebuilding a request from its own attributes does not change what
    the generators return for it. *)
Lemma run_generator_rebuilt (now : string) (r : VizRequest) :
  run_generator
    (VizRequest_init now (title r) (chart_type r) (data r)
       (x_field r) (y_field r) (color_field r) (description r) (insight r)) =
  run_generator r.
Proof.
  destruct r as [t k d xf yf cf desc ins created]. unfold VizRequest_init.
  cbn [title chart_type data x_field y_field color_field description insight].
  destruct (is_chart_type k) eqn:Hk.
  - apply run_generator_ignores_created_at.
  - rewrite (run_generator_fallback (Build_VizRequest t k d xf yf cf desc ins created)).
    + reflexivity.
    + cbn [chart_type]. intros Hin. apply is_chart_type_In in Hin. congruence.
Qed.

(** X15: feeding a request's own dictionary to generate_from_dict gives
    the outcome generate gives for the request, and appends the record of a
    request that differs from it only in created_at when the kind is an
    enumerated one (a kind outside the table is stored as "bar", which is
    how it was drawn). *)
Theorem from_dict_of_to_dict (e : DynamicVizEngine) (now : string) (r : VizRequest) :
  let r' := VizRequest_init now (title r) (chart_type r) (data r)
              (x_field r) (y_field r) (color_field r) (description r) (insight r) in
  generate_from_dict e now (to_dict r) = Some (generate e r') /\
  visualize_custom {| engine := e |} now (to_dict r) =
    Some ({| engine := fst (generate e r') |}, snd (generate e r)) /\
  snd (generate e r') = snd (generate e r) /\
  (In (chart_type r) CHART_TYPES ->
   r' = Build_VizRequest (title r) (chart_type r) (data r) (x_field r) (y_field r)
          (color_field r) (description r) (insight r) now) /\
  (~ In (chart_type r) CHART_TYPES -> chart_type r' = "bar").
Proof.
  intros r'. subst r'.
  assert (Hsame :
    snd (generate e (VizRequest_init now (title r) (chart_type r) (data r)
                       (x_field r) (y_field r) (color_field r)
                       (description r) (insight r))) = snd (generate e r))
    by now rewrite !generate_result, run_generator_rebuilt.
  unfold visualize_custom, generate_from_dict. cbn [engine].
  rewrite request_from_to_dict.
  split; [ reflexivity | ].
  split; [ rewrite <- Hsame; now destruct (generate e _) | ].
  split; [ exact Hsame | ].
  unfold VizRequest_init. cbn [chart_type].
  destruct (is_chart_type (chart_type r)) eqn:Hk; split; intros H;
    try reflexivity.
  - apply is_chart_type_In in Hk. contradiction.
  - apply is_chart_type_In in H. congruence.
Qed.

(** X16: a serialised request determines the request: two requests with
    equal to_dict dictionaries are equal, so nothing of a request is lost in
    the history. *)
Theorem to_dict_injective (r1 r2 : VizRequest) :
  to_dict r1 = to_dict r2 -> r1 = r2.
Proof.
  destruct r1, r2. unfold to_dict, rows. simpl. intros H.
  injection H as Ht Hk Hd Hx Hy Hc Hdesc Hins Hcreated.
  apply map_JObj_inj in Hd. apply of_opt_inj in Hx, Hy, Hc.
  now subst.
Qed.

Lemma to_dict_injective_witness :
  to_dict (demo "sankey") = to_dict (demo "bar") /\
  demo "sankey" = demo "bar".
Proof.
  assert (H : to_dict (demo "sankey") = to_dict (demo "bar")) by reflexivity.
  exact (conj H (to_dict_injective (demo "sankey") (demo "bar") H)).
Defined.

(** X17: the defaults of the untyped entry point.  Whatever request
    generate_from_dict constructs has an enumerated kind and the time of the
    call as created_at; a payload without "title" gets "Chart", without
    "chart_type" gets "bar", without "data" gets the empty list, without
    "description" or "insight" gets the empty string; and a field name that
    is missing or null is an omitted field name. *)
Theorem from_dict_defaults (now : string) (p : dict) (r : VizRequest) :
  request_from_dict now p = Some r ->
  In (chart_type r) CHART_TYPES /\
  created_at r = now /\
  (Py.get "title" p = None -> title r = "Chart") /\
  (Py.get "chart_type" p = None -> chart_type r = "bar") /\
  (Py.get "data" p = None -> data r = []) /\
  (Py.get "description" p = None -> description r = "") /\
  (Py.get "insight" p = None -> insight r = "") /\
  (Py.get "x_field" p = None \/ Py.get "x_field" p = Some JNull -> x_field r = None) /\
  (Py.get "y_field" p = None \/ Py.get "y_field" p = Some JNull -> y_field r = None) /\
  (Py.get "color_field" p = None \/ Py.get "color_field" p = Some JNull ->
   color_field r = None).
Proof.
  unfold request_from_dict, Py.get_default. intros H.
  destruct (as_str match Py.get "title" p with Some v => v | None => JStr "Chart" end)
    as [t |] eqn:Ht; [ | discriminate H ].
  destruct (as_str match Py.get "chart_type" p with Some v => v | None => JStr "bar" end)
    as [k |] eqn:Hk; [ | discriminate H ].
  destruct (as_rows match Py.get "data" p with Some v => v | None => JList [] end)
    as [d |] eqn:Hd; [ | discriminate H ].
  destruct (as_opt_str (Py.get "x_field" p)) as [xf |] eqn:Hx; [ | discriminate H ].
  destruct (as_opt_str (Py.get "y_field" p)) as [yf |] eqn:Hy; [ | discriminate H ].
  destruct (as_opt_str (Py.get "color_field" p)) as [cf |] eqn:Hc; [ | discriminate H ].
  destruct (as_str match Py.get "description" p with Some v => v | None => JStr "" end)
    as [desc |] eqn:Hdesc; [ | discriminate H ].
  destruct (as_str match Py.get "insight" p with Some v => v | None => JStr "" end)
    as [ins |] eqn:Hins; [ | discriminate H ].
  injection H as <-.
  destruct (init_kind now t k d xf yf cf desc ins) as (k' & Hin & Hkeep & _ & ->).
  cbn [title chart_type data x_field y_field color_field description insight created_at].
  repeat split; try assumption; try reflexivity.
  - intros E. rewrite E in Ht. simpl in Ht. congruence.
  - intros E. rewrite E in Hk. simpl in Hk. injection Hk as <-.
    apply Hkeep. simpl. tauto.
  - intros E. rewrite E in Hd. simpl in Hd. congruence.
  - intros E. rewrite E in Hdesc. simpl in Hdesc. congruence.
  - intros E. rewrite E in Hins. simpl in Hins. congruence.
  - intros [E | E]; rewrite E in Hx; simpl in Hx; congruence.
  - intros [E | E]; rewrite E in Hy; simpl in Hy; congruence.
  - intros [E | E]; rewrite E in Hc; simpl in Hc; congruence.
Qed.

Lemma from_dict_defaults_witness :
  let p := [ ("chart_type", JStr "sankey"); ("y_field", JNull); ("insight", JStr "up") ] in
  exists r,
    request_from_dict "2024-05-01T10:00:00" p = Some r /\
    In (chart_type r) CHART_TYPES /\
    created_at r = "2024-05-01T10:00:00" /\
    (Py.get "title" p = None -> title r = "Chart") /\
    (Py.get "chart_type" p = None -> chart_type r = "bar") /\
    (Py.get "data" p = None -> data r = []) /\
    (Py.get "description" p = None -> description r = "") /\
    (Py.get "insight" p = None -> insight r = "") /\
    (Py.get "x_field" p = None \/ Py.get "x_field" p = Some JNull -> x_field r = None) /\
    (Py.get "y_field" p = None \/ Py.get "y_field" p = Some JNull -> y_field r = None) /\
    (Py.get "color_field" p = None \/ Py.get "color_field" p = Some JNull ->
     color_field r = None).
Proof.
  intros p.
  assert (H : request_from_dict "2024-05-01T10:00:00" p =
              Some (VizRequest_init "2024-05-01T10:00:00" "Chart" "sankey" []
                      None None None "" "up")) by reflexivity.
  exact (ex_intro _ _ (conj H (from_dict_defaults _ _ _ H))).
Defined.

(** X18: the dispatch never needs its fallback for a constructed request:
    the constructor leaves an enumerated kind unchanged and turns any other
    string into "bar", which the bar generator then draws; the result is
    always a key of the generator table, and constructing again from the
    normalised kind changes nothing. *)
Theorem constructed_kind_is_dispatched :
  forall now t ct d xf yf cf desc ins,
    let r := VizRequest_init now t ct d xf yf cf desc ins in
    In (chart_type r) CHART_TYPES /\
    (exists g, Py.get (chart_type r) generators = Some g /\ run_generator r = g r) /\
    (In ct CHART_TYPES -> chart_type r = ct) /\
    (~ In ct CHART_TYPES ->
     chart_type r = "bar" /\ run_generator r = Ok (_gen_bar r)) /\
    (chart_type r = ct <-> In ct CHART_TYPES) /\
    VizRequest_init now t (chart_type r) d xf yf cf desc ins = r.
Proof.
  intros now t ct d xf yf cf desc ins r. subst r.
  destruct (init_kind now t ct d xf yf cf desc ins) as (k & Hin & Hkeep & Hbar & ->).
  cbn [chart_type]. split; [ exact Hin | ]. split; [ | split; [ | split; [ | split ] ] ].
  - unfold run_generator, Py.get_default. cbn [chart_type].
    kinds Hin; eexists; split; reflexivity.
  - exact Hkeep.
  - intros Hct. rewrite (Hbar Hct). split; reflexivity.
  - split.
    + intros <-. exact Hin.
    + intros H. now apply Hkeep.
  - unfold VizRequest_init.
    now rewrite (proj2 (is_chart_type_In k) Hin).
Qed.
